(** * Retry policy and error classification of [error_handling_examples.py]

    A shallow embedding of [ErrorType], [APIError], [RetryStrategy],
    [ErrorHandler] and of the three [RobustAPIClient] methods
    [_setup_error_callbacks], [_classify_error] and
    [_make_request_with_retry], followed by the properties the specification
    states about them.

    Conventions of the embedding.
    - Python [int] is [Z]; [Optional[int]] is [option Z]; [str] is [string].
    - Python [float] is idealised as an exact rational ([Q]): IEEE rounding
      and the [OverflowError] of [**] beyond the double range are outside the
      model.  Results on delays are therefore stated up to [==].
    - A call that may raise returns an [outcome]: [Return v] or [Raise e].
    - [time.time()] is an explicit argument (the clock reading).
    - A [dict] with string keys is a [gmap string _].
    - The [timestamp] field of [APIError] is never read by the code below
      and is left out of the record. *)

From Stdlib Require Import ZArith QArith Qround Qpower Qminmax Qabs Lia Lqa Ascii.
From stdpp Require Import base strings gmap pretty.

Local Open Scope string_scope.

(** ** Exceptions and raising computations *)

(** The exception classes that the code can meet: those of [requests]
    (with its class hierarchy, see [isinstance_Timeout] and
    [isinstance_ConnectionError]) and the built-in ones raised by [int],
    [time.sleep] and [**]. *)
Inductive ExceptionClass : Set :=
  | Timeout
  | ReadTimeout
  | ConnectTimeout
  | ConnectionError
  | ProxyError
  | SSLError
  | JSONDecodeError
  | ValueError
  | TypeError
  | ZeroDivisionError
  | OtherException.

(** An exception object: its class and its [str()]. *)
Record PyException : Set := mkException {
  exc_class : ExceptionClass;
  exc_str : string
}.

(** [isinstance(e, requests.exceptions.Timeout)]:
    [ReadTimeout] and [ConnectTimeout] derive from [Timeout]. *)
Definition isinstance_Timeout (c : ExceptionClass) : bool :=
  match c with
  | Timeout | ReadTimeout | ConnectTimeout => true
  | _ => false
  end.

(** [isinstance(e, requests.exceptions.ConnectionError)]:
    [ProxyError], [SSLError] and [ConnectTimeout] derive from
    [ConnectionError] ([ConnectTimeout] derives from both). *)
Definition isinstance_ConnectionError (c : ExceptionClass) : bool :=
  match c with
  | ConnectionError | ProxyError | SSLError | ConnectTimeout => true
  | _ => false
  end.

Inductive outcome (A : Type) : Type :=
  | Return (a : A)
  | Raise (e : PyException).
Arguments Return {A} a.
Arguments Raise {A} e.

#[global] Instance outcome_ret : MRet outcome := fun _ a => Return a.
#[global] Instance outcome_bind : MBind outcome := fun _ _ f m =>
  match m with
  | Return a => f a
  | Raise e => Raise e
  end.

Definition returns {A} (m : outcome A) : bool :=
  match m with Return _ => true | Raise _ => false end.

(** Two calls end the same way: both return, with equal numbers, or both
    raise the same exception. *)
Definition same_result (m1 m2 : outcome Q) : Prop :=
  match m1, m2 with
  | Return a, Return b => (a == b)%Q
  | Raise e1, Raise e2 => e1 = e2
  | _, _ => False
  end.

(** ** Data model *)

Inductive ErrorType : Set :=
  | NETWORK_ERROR
  | TIMEOUT_ERROR
  | AUTHENTICATION_ERROR
  | AUTHORIZATION_ERROR
  | RATE_LIMIT_ERROR
  | SERVER_ERROR
  | CLIENT_ERROR
  | VALIDATION_ERROR
  | UNKNOWN_ERROR.

#[global] Instance ErrorType_eq_dec : EqDecision ErrorType.
Proof. solve_decision. Defined.

(** [ErrorType.value] *)
Definition value (t : ErrorType) : string :=
  match t with
  | NETWORK_ERROR => "network_error"
  | TIMEOUT_ERROR => "timeout_error"
  | AUTHENTICATION_ERROR => "auth_error"
  | AUTHORIZATION_ERROR => "authorization_error"
  | RATE_LIMIT_ERROR => "rate_limit_error"
  | SERVER_ERROR => "server_error"
  | CLIENT_ERROR => "client_error"
  | VALIDATION_ERROR => "validation_error"
  | UNKNOWN_ERROR => "unknown_error"
  end.

Record APIError : Set := mkAPIError {
  error_type : ErrorType;
  message : string;
  status_code : option Z;
  retry_after : option Z;
  original_exception : option PyException
}.

(** A call returns an error of the given kind. *)
Definition yields (m : outcome APIError) (kind : ErrorType) : Prop :=
  exists error, m = Return error /\ error_type error = kind.

(** Truth value of an [Optional[int]]: [None] and [0] are false. *)
Definition truthy (x : option Z) : bool :=
  match x with
  | Some n => negb (n =? 0)%Z
  | None => false
  end.

(** ** RetryStrategy *)

Module RetryStrategy.

Record t : Set := __init__ {
  max_retries : Z;
  base_delay : Q;
  max_delay : Q;
  backoff_factor : Q
}.

(** [RetryStrategy()] : the default arguments of the constructor. *)
Definition default : t := __init__ 3 1 60 2.

Definition retryable_errors : list ErrorType :=
  [NETWORK_ERROR; TIMEOUT_ERROR; SERVER_ERROR; RATE_LIMIT_ERROR].

Definition should_retry (self : t) (error : APIError) (attempt : Z) : bool :=
  if (attempt >=? max_retries self)%Z then false
  else if bool_decide (error_type error = CLIENT_ERROR)
          && negb (bool_decide (status_code error = Some 429%Z)) then false
  else if bool_decide (error_type error = AUTHENTICATION_ERROR) then false
  else bool_decide (error_type error ∈ retryable_errors).

(** [x ** n] for a float [x] and an int [n]: a zero base with a negative
    exponent raises. *)
Definition float_pow (x : Q) (n : Z) : outcome Q :=
  if Qeq_bool x 0 && (n <? 0)%Z
  then Raise (mkException ZeroDivisionError
                "0.0 cannot be raised to a negative power")
  else Return (x ^ n)%Q.

(** [x % 1] for a float [x]: the result has the sign of the divisor. *)
Definition float_mod_1 (x : Q) : Q := (x - inject_Z (Qfloor x))%Q.

(** The local variable [delay] of [get_delay]: the capped exponential,
    before the jitter is added. *)
Definition backoff (self : t) (attempt : Z) : outcome Q :=
  p ← float_pow (backoff_factor self) attempt;
  mret (Qmin (base_delay self * p) (max_delay self))%Q.

(** The condition of the first [if] of [get_delay]. *)
Definition retry_after_path (error : APIError) : bool :=
  bool_decide (error_type error = RATE_LIMIT_ERROR)
  && truthy (retry_after error).

(** [now] is the value that [time.time()] returns inside the call. *)
Definition get_delay (self : t) (attempt : Z) (error : APIError) (now : Q)
  : outcome Q :=
  if retry_after_path error
  then match retry_after error with
       | Some n => Return (inject_Z n)
       | None => Raise (mkException TypeError
                   "float() argument must be a string or a real number")
       end
  else
    delay ← backoff self attempt;
    let jitter := (delay * (1 # 10) * ((1 # 2) - float_mod_1 now))%Q in
    mret (delay + jitter)%Q.

End RetryStrategy.

(** ** Python values, [int()] and [time.sleep] *)

(** The values stored in the dictionaries below.  [VJson] is a decoded JSON
    document, kept as its text. *)
Inductive PyVal : Set :=
  | VNone
  | VBool (b : bool)
  | VInt (n : Z)
  | VStr (s : string)
  | VJson (raw : string).

Definition of_optional_int (x : option Z) : PyVal :=
  match x with Some n => VInt n | None => VNone end.

(** The characters that [int()] skips around a literal. *)
Definition is_space (c : ascii) : bool :=
  let n := nat_of_ascii c in
  ((9 <=? n) && (n <=? 13))%nat || (n =? 32)%nat.

Definition digit_value (c : ascii) : option Z :=
  let n := nat_of_ascii c in
  if ((48 <=? n) && (n <=? 57))%nat then Some (Z.of_nat n - 48)%Z else None.

Fixpoint skip_spaces (l : list ascii) : list ascii :=
  match l with
  | c :: l' => if is_space c then skip_spaces l' else l
  | [] => []
  end.

(** Decimal digits with single underscores between them.  [prev] tells
    whether the previous character was a digit; the scan stops at the first
    character that is neither a digit nor an underscore and returns the rest
    of the input. *)
Fixpoint scan_digits (acc : Z) (prev : bool) (l : list ascii)
  : option (Z * list ascii) :=
  match l with
  | [] => if prev then Some (acc, []) else None
  | c :: l' =>
      match digit_value c with
      | Some d => scan_digits (acc * 10 + d)%Z true l'
      | None =>
          if Ascii.eqb c "_"%char
          then (if prev then scan_digits acc false l' else None)
          else (if prev then Some (acc, l) else None)
      end
  end.

(** The base-10 literal grammar of [int(str)] on ASCII text: optional
    surrounding white space, an optional sign, digits with single inner
    underscores.  The interpreter's limit on the number of digits is not
    modelled. *)
Definition parse_int (s : string) : option Z :=
  let l := skip_spaces (String.list_ascii_of_string s) in
  let '(sign, l) :=
    match l with
    | "+"%char :: l' => (1%Z, l')
    | "-"%char :: l' => ((-1)%Z, l')
    | _ => (1%Z, l)
    end in
  match scan_digits 0 false l with
  | Some (n, rest) =>
      match skip_spaces rest with
      | [] => Some (sign * n)%Z
      | _ => None
      end
  | None => None
  end.

(** The built-in [int] on the values that reach it. *)
Definition int_ (v : PyVal) : outcome Z :=
  match v with
  | VInt n => Return n
  | VBool b => Return (if b then 1%Z else 0%Z)
  | VStr s =>
      match parse_int s with
      | Some n => Return n
      | None => Raise (mkException ValueError
                  ("invalid literal for int() with base 10: '" +:+ s +:+ "'"))
      end
  | VNone | VJson _ =>
      Raise (mkException TypeError
        "int() argument must be a string, a bytes-like object or a real number")
  end.

Definition time_sleep (secs : Q) : outcome unit :=
  if Qle_bool 0 secs then Return tt
  else Raise (mkException ValueError "sleep length must be non-negative").

(** ** The HTTP response *)

Definition lower_ascii (c : ascii) : ascii :=
  let n := nat_of_ascii c in
  if ((65 <=? n) && (n <=? 90))%nat then ascii_of_nat (n + 32) else c.

Fixpoint lower (s : string) : string :=
  match s with
  | EmptyString => EmptyString
  | String c s' => String (lower_ascii c) (lower s')
  end.

(** [requests.structures.CaseInsensitiveDict]: the store maps the lowered
    header name to the name as sent and the value. *)
Module CaseInsensitiveDict.

Definition get (store : gmap string (string * string)) (key : string)
    (default : PyVal) : PyVal :=
  match store !! lower key with
  | Some (_, v) => VStr v
  | None => default
  end.

Definition set (key v : string) (store : gmap string (string * string))
  : gmap string (string * string) :=
  <[lower key := (key, v)]> store.

End CaseInsensitiveDict.

Module Response.

Record t : Type := mk {
  status_code : Z;
  headers : gmap string (string * string);
  json : outcome PyVal
}.

End Response.

(** ** ErrorHandler *)

Definition ErrorType_to_nat (t : ErrorType) : nat :=
  match t with
  | NETWORK_ERROR => 0
  | TIMEOUT_ERROR => 1
  | AUTHENTICATION_ERROR => 2
  | AUTHORIZATION_ERROR => 3
  | RATE_LIMIT_ERROR => 4
  | SERVER_ERROR => 5
  | CLIENT_ERROR => 6
  | VALIDATION_ERROR => 7
  | UNKNOWN_ERROR => 8
  end.

Definition ErrorType_of_nat (n : nat) : option ErrorType :=
  match n with
  | 0 => Some NETWORK_ERROR
  | 1 => Some TIMEOUT_ERROR
  | 2 => Some AUTHENTICATION_ERROR
  | 3 => Some AUTHORIZATION_ERROR
  | 4 => Some RATE_LIMIT_ERROR
  | 5 => Some SERVER_ERROR
  | 6 => Some CLIENT_ERROR
  | 7 => Some VALIDATION_ERROR
  | 8 => Some UNKNOWN_ERROR
  | _ => None
  end.

#[global] Instance ErrorType_countable : Countable ErrorType.
Proof.
  apply (inj_countable ErrorType_to_nat ErrorType_of_nat).
  intros []; reflexivity.
Defined.

Module ErrorHandler.

(** A registered callback: what matters of a call is whether it raises. *)
Definition Callable : Type := APIError -> outcome unit.

Record t : Type := mk {
  retry_strategy : RetryStrategy.t;
  error_callbacks : gmap ErrorType Callable
}.

Definition __init__ (retry_strategy : option RetryStrategy.t) : t :=
  mk (default RetryStrategy.default retry_strategy) ∅.

Definition register_callback (self : t) (error_type : ErrorType)
    (callback : Callable) : t :=
  mk (retry_strategy self) (<[error_type := callback]> (error_callbacks self)).

Definition _default_error_handling (error : APIError) : bool :=
  match error_type error with
  | AUTHENTICATION_ERROR => false
  | RATE_LIMIT_ERROR => true
  | SERVER_ERROR => true
  | NETWORK_ERROR => true
  | _ => false
  end.

(** A callback that raises is logged and the default handling decides. *)
Definition handle_error (self : t) (error : APIError) : bool :=
  match error_callbacks self !! error_type error with
  | Some callback =>
      match callback error with
      | Return _ => true
      | Raise _ => _default_error_handling error
      end
  | None => _default_error_handling error
  end.

End ErrorHandler.

(** ** RobustAPIClient *)

(** What the world gives to one call of [_make_request_with_retry]: the
    outcome of [self.session.request(...)] and the reading of [time.time()]
    at each value of [attempt].  The method, the URL and the credentials
    only reach the transport and are part of it. *)
Record Environment : Type := mkEnvironment {
  session_request : Z -> outcome Response.t;
  time_time : Z -> Q
}.

(** How an iteration of the [for] loop ends: it goes on with the next
    value, or the function returns. *)
Inductive Control : Type :=
  | Next
  | Result (d : gmap string PyVal).

Module RobustAPIClient.

Record t : Type := mk {
  error_handler : ErrorHandler.t;
  retry_strategy : RetryStrategy.t
}.

Definition handle_auth_error : ErrorHandler.Callable :=
  fun _ => Return tt.

Definition handle_rate_limit : ErrorHandler.Callable :=
  fun error =>
    match retry_after error with
    | Some n => time_sleep (inject_Z n)
    | None => Raise (mkException TypeError
                "'NoneType' object cannot be interpreted as an integer")
    end.

Definition handle_server_error : ErrorHandler.Callable :=
  fun _ => Return tt.

Definition _setup_error_callbacks (self : t) : t :=
  let h := error_handler self in
  let h := ErrorHandler.register_callback h AUTHENTICATION_ERROR handle_auth_error in
  let h := ErrorHandler.register_callback h RATE_LIMIT_ERROR handle_rate_limit in
  let h := ErrorHandler.register_callback h SERVER_ERROR handle_server_error in
  mk h (retry_strategy self).

(** The base URL, the key and the session are part of the transport (see
    [Environment]); the client keeps its handler and its strategy. *)
Definition __init__ : t :=
  _setup_error_callbacks (mk (ErrorHandler.__init__ None) RetryStrategy.default).

(** [str(exception)]. *)
Definition str (exception : option PyException) : string :=
  match exception with
  | Some e => exc_str e
  | None => "None"
  end.

Definition isinstance (exception : option PyException)
    (class : ExceptionClass -> bool) : bool :=
  match exception with
  | Some e => class (exc_class e)
  | None => false
  end.

(** [self] is not used by the method and is left out. *)
Definition _classify_error (exception : option PyException)
    (response : option Response.t) : outcome APIError :=
  let unknown :=
    Return (mkAPIError UNKNOWN_ERROR (str exception) None None exception) in
  if isinstance exception isinstance_Timeout then
    Return (mkAPIError TIMEOUT_ERROR "Request timeout" None None exception)
  else if isinstance exception isinstance_ConnectionError then
    Return (mkAPIError NETWORK_ERROR "Connection error" None None exception)
  else
    match response with
    | Some response =>
        let status_code := Response.status_code response in
        if (status_code =? 401)%Z then
          Return (mkAPIError AUTHENTICATION_ERROR "Authentication failed"
                    (Some status_code) None None)
        else if (status_code =? 403)%Z then
          Return (mkAPIError AUTHORIZATION_ERROR "Access forbidden"
                    (Some status_code) None None)
        else if (status_code =? 429)%Z then
          retry_after ← int_ (CaseInsensitiveDict.get
                                (Response.headers response)
                                "Retry-After" (VInt 60));
          Return (mkAPIError RATE_LIMIT_ERROR "Rate limit exceeded"
                    (Some status_code) (Some retry_after) None)
        else if ((400 <=? status_code) && (status_code <? 500))%Z then
          Return (mkAPIError CLIENT_ERROR
                    ("Client error: " +:+ pretty status_code)
                    (Some status_code) None None)
        else if ((500 <=? status_code) && (status_code <? 600))%Z then
          Return (mkAPIError SERVER_ERROR
                    ("Server error: " +:+ pretty status_code)
                    (Some status_code) None None)
        else unknown
    | None => unknown
    end.

(** The dictionary returned for a failed request; [with_status] tells
    whether the [return] statement has the ['status_code'] entry. *)
Definition failure (error : APIError) (with_status : bool)
  : gmap string PyVal :=
  let d : gmap string PyVal :=
    {[ "success" := VBool false;
       "error" := VStr (message error);
       "error_type" := VStr (value (error_type error)) ]} in
  if with_status
  then <["status_code" := of_optional_int (status_code error)]> d
  else d.

Definition max_retries_exceeded : gmap string PyVal :=
  {[ "success" := VBool false;
     "error" := VStr "Max retries exceeded";
     "error_type" := VStr "max_retries_exceeded" ]}.

(** The functions below return, next to the Python result, the list of
    the [APIError] values that [_classify_error] produced on the way, in
    order.  The list is not part of the program: it is there to state
    which error a returned dictionary was built from. *)

(** The body of the [try]. *)
Definition try_block (self : t) (env : Environment) (attempt : Z)
  : outcome Control * list APIError :=
  match session_request env attempt with
  | Raise e => (Raise e, [])
  | Return response =>
      if (Response.status_code response =? 200)%Z then
        match Response.json response with
        | Raise e => (Raise e, [])
        | Return data =>
            (Return (Result
               {[ "success" := VBool true;
                  "data" := data;
                  "status_code" := VInt (Response.status_code response) ]}),
             [])
        end
      else
        match _classify_error None (Some response) with
        | Raise e => (Raise e, [])
        | Return error =>
            if negb (RetryStrategy.should_retry (retry_strategy self)
                       error attempt)
            then (Return (Result (failure error true)), [error])
            else if negb (ErrorHandler.handle_error (error_handler self)
                            error)
            then (Return (Result (failure error true)), [error])
            else
              (delay ← RetryStrategy.get_delay (retry_strategy self)
                         attempt error (time_time env attempt);
               _ ← time_sleep delay;
               mret Next,
               [error])
        end
  end.

(** The handlers of [requests.exceptions.Timeout] and of
    [requests.exceptions.ConnectionError], which have the same text.  An
    exception raised here leaves the function. *)
Definition except_transient (self : t) (env : Environment) (attempt : Z)
    (e : PyException) : outcome Control * list APIError :=
  match _classify_error (Some e) None with
  | Raise e' => (Raise e', [])
  | Return error =>
      if negb (RetryStrategy.should_retry (retry_strategy self)
                 error attempt)
      then (Return (Result (failure error false)), [error])
      else
        (delay ← RetryStrategy.get_delay (retry_strategy self)
                   attempt error (time_time env attempt);
         _ ← time_sleep delay;
         mret Next,
         [error])
  end.

(** The handler of [Exception]. *)
Definition except_Exception (e : PyException)
  : outcome Control * list APIError :=
  match _classify_error (Some e) None with
  | Raise e' => (Raise e', [])
  | Return error => (Return (Result (failure error false)), [error])
  end.

(** One iteration: the [try] statement with its three handlers. *)
Definition loop_body (self : t) (env : Environment) (attempt : Z)
  : outcome Control * list APIError :=
  match try_block self env attempt with
  | (Return c, produced) => (Return c, produced)
  | (Raise e, produced) =>
      let '(c, produced') :=
        if isinstance_Timeout (exc_class e)
        then except_transient self env attempt e
        else if isinstance_ConnectionError (exc_class e)
        then except_transient self env attempt e
        else except_Exception e in
      (c, (produced ++ produced')%list)
  end.

(** [for attempt in attempts: ...], then the [return] after the loop. *)
Fixpoint for_loop (self : t) (env : Environment) (attempts : list Z)
    (log : list APIError) : outcome (gmap string PyVal) * list APIError :=
  match attempts with
  | [] => (Return max_retries_exceeded, log)
  | attempt :: rest =>
      match loop_body self env attempt with
      | (Return Next, produced) => for_loop self env rest (log ++ produced)%list
      | (Return (Result d), produced) => (Return d, (log ++ produced)%list)
      | (Raise e, produced) => (Raise e, (log ++ produced)%list)
      end
  end.

(** [range(n)] *)
Definition range (n : Z) : list Z := seqZ 0 n.

Definition _make_request_with_retry (self : t) (env : Environment)
  : outcome (gmap string PyVal) * list APIError :=
  for_loop self env
    (range (RetryStrategy.max_retries (retry_strategy self) + 1)) [].

End RobustAPIClient.

(** ** Vocabulary of the statements on the retry loop *)

(** The returned dictionary reports a success. *)
Definition succeeded (d : gmap string PyVal) : Prop :=
  d !! "success" = Some (VBool true).

(** The returned dictionary reports a failure and is built from [error]:
    its message, the value of its kind and, when the entry is there, its
    status code. *)
Definition carries (d : gmap string PyVal) (error : APIError) : Prop :=
  d !! "success" = Some (VBool false)
  /\ d !! "error" = Some (VStr (message error))
  /\ d !! "error_type" = Some (VStr (value (error_type error)))
  /\ (d !! "status_code" = None
      \/ d !! "status_code" = Some (of_optional_int (status_code error))).

(** A strategy whose delays cannot be negative. *)
Definition usable (s : RetryStrategy.t) : Prop :=
  (0 <= RetryStrategy.base_delay s)%Q
  /\ (0 < RetryStrategy.backoff_factor s)%Q
  /\ (0 <= RetryStrategy.max_delay s)%Q.

(** The request of this attempt was answered with status 200. *)
Definition got_200 (env : Environment) (attempt : Z) : Prop :=
  exists response,
    session_request env attempt = Return response
    /\ Response.status_code response = 200%Z.

(** What an iteration may end with: it goes on only below [max_retries],
    it returns a success, after a response with status 200, or a failure
    built from the last error it classified, and ([may_raise = false]) it
    does not raise. *)
Definition iteration_ok (self : RobustAPIClient.t) (env : Environment)
    (attempt : Z) (may_raise : bool) (r : outcome Control * list APIError)
  : Prop :=
  match r with
  | (Return Next, _) =>
      (attempt < RetryStrategy.max_retries
                   (RobustAPIClient.retry_strategy self))%Z
  | (Return (Result d), produced) =>
      (succeeded d /\ got_200 env attempt)
      \/ exists error, last produced = Some error /\ carries d error
  | (Raise _, _) => may_raise = true
  end.

(** ** Vocabulary of the statements on whole calls *)

(** The number of iterations of the [for] loop that are run.  Each one
    starts with one call of [self.session.request], so this is also the
    number of requests that are sent. *)
Fixpoint iterations (self : RobustAPIClient.t) (env : Environment)
    (attempts : list Z) : nat :=
  match attempts with
  | [] => 0
  | attempt :: rest =>
      match RobustAPIClient.loop_body self env attempt with
      | (Return Next, _) => S (iterations self env rest)
      | _ => 1
      end
  end.

Definition requests_sent (self : RobustAPIClient.t) (env : Environment)
  : nat :=
  iterations self env
    (RobustAPIClient.range
       (RetryStrategy.max_retries (RobustAPIClient.retry_strategy self) + 1)).

(** A response that the loop answers with a wait and another attempt: a
    status in 500-599, or a 429 whose [Retry-After] header is absent or
    holds an integer that is not negative. *)
Definition retryable_response (r : Response.t) : Prop :=
  (500 <= Response.status_code r < 600)%Z
  \/ (Response.status_code r = 429%Z
      /\ (Response.headers r !! "retry-after" = None
          \/ exists name v n,
               Response.headers r !! "retry-after" = Some (name, v)
               /\ parse_int v = Some n /\ (0 <= n)%Z)).

(** * Properties *)

(** ** [RetryStrategy.should_retry] *)

Section ShouldRetry.

Import RetryStrategy.
Variable self : RetryStrategy.t.

(** The decision in closed form: only the kind of the error, the attempt
    and [max_retries] matter.  The two guards in front of the list test
    reject kinds that the list does not hold anyway. *)
Lemma should_retry_closed_form (error : APIError) (attempt : Z) :
  should_retry self error attempt
  = (attempt <? max_retries self)%Z
    && bool_decide (error_type error ∈
         [NETWORK_ERROR; TIMEOUT_ERROR; SERVER_ERROR; RATE_LIMIT_ERROR]).
Proof.
  unfold should_retry, retryable_errors.
  rewrite Z.geb_leb, Z.leb_antisym.
  destruct (attempt <? max_retries self)%Z; simpl; [|reflexivity].
  destruct (error_type error); simpl; try reflexivity.
  now destruct (bool_decide (status_code error = Some 429%Z)).
Qed.

End ShouldRetry.

(** C1: while [attempt < max_retries], [should_retry] answers true exactly
    for the kinds network, timeout, server and rate_limit, and false for
    authentication, authorization, validation, unknown and client. *)
Theorem should_retry_kinds (self : RetryStrategy.t) (error : APIError)
    (attempt : Z) :
  (attempt < RetryStrategy.max_retries self)%Z ->
  (RetryStrategy.should_retry self error attempt = true
   <-> error_type error ∈
         [NETWORK_ERROR; TIMEOUT_ERROR; SERVER_ERROR; RATE_LIMIT_ERROR])
  /\ (error_type error ∈
        [AUTHENTICATION_ERROR; AUTHORIZATION_ERROR; VALIDATION_ERROR;
         UNKNOWN_ERROR; CLIENT_ERROR]
      -> RetryStrategy.should_retry self error attempt = false).
Proof.
  intros Hlt. rewrite should_retry_closed_form.
  apply Z.ltb_lt in Hlt. rewrite Hlt. simpl. split.
  - apply bool_decide_eq_true.
  - intros Hin. apply bool_decide_eq_false. intros Hin'.
    apply list_elem_of_In in Hin, Hin'. simpl in Hin, Hin'.
    destruct (error_type error); intuition discriminate.
Qed.

Lemma should_retry_kinds_witness :
  (0 < RetryStrategy.max_retries RetryStrategy.default)%Z
  /\ RetryStrategy.should_retry RetryStrategy.default
       (mkAPIError SERVER_ERROR "Server error: 503" (Some 503%Z) None None) 0
     = true
  /\ RetryStrategy.should_retry RetryStrategy.default
       (mkAPIError CLIENT_ERROR "Client error: 404" (Some 404%Z) None None) 0
     = false.
Proof.
  split; [reflexivity|]. split.
  - apply (should_retry_kinds RetryStrategy.default _ 0); [reflexivity|].
    simpl. repeat constructor.
  - apply (should_retry_kinds RetryStrategy.default _ 0); [reflexivity|].
    simpl. repeat constructor.
Defined.

(** C2: once [attempt >= max_retries], [should_retry] answers false for
    every error, whatever its kind. *)
Theorem should_retry_exhausted (self : RetryStrategy.t) (error : APIError)
    (attempt : Z) :
  (attempt >= RetryStrategy.max_retries self)%Z ->
  RetryStrategy.should_retry self error attempt = false.
Proof.
  intros Hge. unfold RetryStrategy.should_retry.
  destruct (Z.geb_spec attempt (RetryStrategy.max_retries self)) as [_|Hlt];
    [reflexivity | lia].
Qed.

Lemma should_retry_exhausted_witness :
  (3 >= RetryStrategy.max_retries RetryStrategy.default)%Z
  /\ RetryStrategy.should_retry RetryStrategy.default
       (mkAPIError SERVER_ERROR "Server error: 500" (Some 500%Z) None None) 3
     = false.
Proof.
  split; [simpl; lia|].
  apply (should_retry_exhausted RetryStrategy.default _ 3). simpl. lia.
Defined.

(** C10: while [attempt < max_retries], an error of kind client is not
    retried whatever its status code, 429 included: the exemption of 429 in
    the first guard only lets such an error reach the list test, and client
    is not in the list. *)
Theorem should_retry_client_429 (self : RetryStrategy.t) (error : APIError)
    (attempt : Z) :
  (attempt < RetryStrategy.max_retries self)%Z ->
  error_type error = CLIENT_ERROR ->
  RetryStrategy.should_retry self error attempt = false.
Proof.
  intros _ Hkind. rewrite should_retry_closed_form, Hkind.
  apply andb_false_r.
Qed.

Lemma should_retry_client_429_witness :
  let error :=
    mkAPIError CLIENT_ERROR "Client error: 429" (Some 429%Z) None None in
  (0 < RetryStrategy.max_retries RetryStrategy.default)%Z
  /\ error_type error = CLIENT_ERROR
  /\ status_code error = Some 429%Z
  /\ RetryStrategy.should_retry RetryStrategy.default error 0 = false.
Proof.
  intros error. do 3 (split; [reflexivity|]).
  apply (should_retry_client_429 RetryStrategy.default error 0); reflexivity.
Defined.

(** ** [RetryStrategy.get_delay] *)

Section GetDelay.

Import RetryStrategy.
Local Open Scope Q_scope.

Lemma float_mod_1_range (x : Q) : 0 <= float_mod_1 x /\ float_mod_1 x < 1.
Proof.
  unfold float_mod_1.
  pose proof (Qfloor_le x) as Hlo. pose proof (Qlt_floor x) as Hhi.
  rewrite inject_Z_plus in Hhi. change (inject_Z 1) with 1 in Hhi.
  split; lra.
Qed.

(** The fractional part is all that [get_delay] reads of the clock. *)
Lemma float_mod_1_half : float_mod_1 (1 # 2) == 1 # 2.
Proof. reflexivity. Qed.

Lemma float_pow_returns (x : Q) (n : Z) :
  (0 <= n)%Z \/ ~ x == 0 -> float_pow x n = Return (x ^ n).
Proof.
  intros H. unfold float_pow.
  destruct (Qeq_bool x 0) eqn:Hx; [|reflexivity].
  destruct (Z.ltb_spec n 0) as [Hn|Hn]; [|reflexivity].
  apply Qeq_bool_iff in Hx. destruct H; [lia | contradiction].
Qed.

Lemma backoff_returns (self : t) (attempt : Z) :
  (0 <= attempt)%Z \/ ~ backoff_factor self == 0 ->
  backoff self attempt
  = Return (Qmin (base_delay self * backoff_factor self ^ attempt)
                 (max_delay self)).
Proof.
  intros H. unfold backoff. now rewrite (float_pow_returns _ _ H).
Qed.

Lemma get_delay_backoff_path (self : t) (attempt : Z) (error : APIError)
    (now d : Q) :
  retry_after_path error = false ->
  backoff self attempt = Return d ->
  get_delay self attempt error now
  = Return (d + d * (1 # 10) * ((1 # 2) - float_mod_1 now)).
Proof.
  intros Hpath Hd. unfold get_delay. now rewrite Hpath, Hd.
Qed.

(** The first branch: a rate-limit error whose [retry_after] is an
    integer other than zero gets that integer, as a float. *)
Lemma get_delay_retry_after_nonzero (self : t) (attempt : Z)
    (error : APIError) (now : Q) (n : Z) :
  error_type error = RATE_LIMIT_ERROR ->
  retry_after error = Some n ->
  n ≠ 0%Z ->
  get_delay self attempt error now = Return (inject_Z n).
Proof.
  intros Hkind Hra Hn. unfold get_delay, retry_after_path.
  rewrite Hkind, Hra. simpl.
  destruct (Z.eqb_spec n 0) as [->|_]; [contradiction | reflexivity].
Qed.

(** The jitter stays within a twentieth of the delay it is added to. *)
Lemma jitter_bounds (d f : Q) :
  0 <= d -> 0 <= f -> f < 1 ->
  let r := d + d * (1 # 10) * ((1 # 2) - f) in
  d - (5 # 100) * d <= r /\ r <= d + (5 # 100) * d /\ 0 <= r.
Proof.
  intros Hd Hf0 Hf1 r. subst r.
  assert (0 <= d * f) by (apply Qmult_le_0_compat; assumption).
  assert (0 <= d * (1 - f)) by (apply Qmult_le_0_compat; lra).
  repeat split; lra.
Qed.

End GetDelay.

(** C5, at the input where the code leaves it: a rate-limit error that
    carries [retry_after = 0] (a response with [Retry-After: 0]) does not
    get the delay [0.0].  Zero is false in the test of the first branch, so
    the call computes the exponential delay with its jitter, here at the
    first attempt with the default strategy, whatever the clock. *)
Theorem get_delay_retry_after_zero (now : Q) :
  exists d,
    RetryStrategy.get_delay RetryStrategy.default 0
      (mkAPIError RATE_LIMIT_ERROR "Rate limit exceeded" (Some 429%Z)
         (Some 0%Z) None) now = Return d
    /\ (95 # 100 <= d)%Q /\ ~ (d == inject_Z 0)%Q.
Proof.
  exists (1 + 1 * (1 # 10) * ((1 # 2) - RetryStrategy.float_mod_1 now))%Q.
  split; [reflexivity|].
  destruct (float_mod_1_range now) as [H0 H1].
  change (inject_Z 0) with 0%Q. split; lra.
Qed.



(** With non-negative delays and a positive factor the capped exponential
    exists, for every attempt, and is not negative. *)
Lemma backoff_nonneg (self : RetryStrategy.t) (attempt : Z) :
  (0 <= RetryStrategy.base_delay self)%Q ->
  (0 < RetryStrategy.backoff_factor self)%Q ->
  (0 <= RetryStrategy.max_delay self)%Q ->
  let d := Qmin (RetryStrategy.base_delay self
                 * RetryStrategy.backoff_factor self ^ attempt)%Q
                (RetryStrategy.max_delay self) in
  RetryStrategy.backoff self attempt = Return d /\ (0 <= d)%Q.
Proof.
  intros Hbase Hfactor Hmax d. split.
  - apply backoff_returns. right. intros Hz. rewrite Hz in Hfactor.
    now apply Qlt_irrefl in Hfactor.
  - apply Q.min_glb; [|assumption].
    apply Qmult_le_0_compat; [assumption|].
    apply Qpower_0_le. now apply Qlt_le_weak.
Qed.

(** Hence the value returned on the exponential path is not negative. *)
Lemma get_delay_backoff_nonneg (self : RetryStrategy.t) (attempt : Z)
    (error : APIError) (now : Q) :
  RetryStrategy.retry_after_path error = false ->
  usable self ->
  exists r,
    RetryStrategy.get_delay self attempt error now = Return r /\ (0 <= r)%Q.
Proof.
  intros Hpath (Hbase & Hfactor & Hmax).
  destruct (backoff_nonneg self attempt Hbase Hfactor Hmax) as [Hd Hpos].
  eexists. split; [exact (get_delay_backoff_path _ _ _ now _ Hpath Hd)|].
  destruct (float_mod_1_range now) as [H0 H1].
  now apply jitter_bounds.
Qed.






(** ** [RobustAPIClient._classify_error] *)

(** Reads [headers.get('Retry-After', 60)] as a lookup of the lowered
    name in the store. *)
Ltac header_lookup :=
  unfold CaseInsensitiveDict.get;
  change (lower "Retry-After") with "retry-after".

Section Classify.

Import RobustAPIClient.

Lemma classify_timeout (exception : option PyException)
    (response : option Response.t) :
  isinstance exception isinstance_Timeout = true ->
  _classify_error exception response
  = Return (mkAPIError TIMEOUT_ERROR "Request timeout" None None exception).
Proof. intros H. unfold _classify_error. now rewrite H. Qed.

Lemma classify_connection (exception : option PyException)
    (response : option Response.t) :
  isinstance exception isinstance_Timeout = false ->
  isinstance exception isinstance_ConnectionError = true ->
  _classify_error exception response
  = Return (mkAPIError NETWORK_ERROR "Connection error" None None exception).
Proof. intros H1 H2. unfold _classify_error. now rewrite H1, H2. Qed.

(** What is left of the function once the two [isinstance] tests have
    failed and a response is there. *)
Lemma classify_response (exception : option PyException)
    (response : Response.t) :
  isinstance exception isinstance_Timeout = false ->
  isinstance exception isinstance_ConnectionError = false ->
  let s := Response.status_code response in
  (s = 401%Z -> yields (_classify_error exception (Some response))
                  AUTHENTICATION_ERROR)
  /\ (s = 403%Z -> yields (_classify_error exception (Some response))
                     AUTHORIZATION_ERROR)
  /\ (s = 429%Z ->
      _classify_error exception (Some response)
      = (retry_after ← int_ (CaseInsensitiveDict.get
                               (Response.headers response)
                               "Retry-After" (VInt 60));
         Return (mkAPIError RATE_LIMIT_ERROR "Rate limit exceeded"
                   (Some 429%Z) (Some retry_after) None)))
  /\ ((400 <= s < 500)%Z -> s ≠ 401%Z -> s ≠ 403%Z -> s ≠ 429%Z ->
      yields (_classify_error exception (Some response)) CLIENT_ERROR)
  /\ ((500 <= s < 600)%Z ->
      yields (_classify_error exception (Some response)) SERVER_ERROR)
  /\ (~ (400 <= s < 600)%Z ->
      yields (_classify_error exception (Some response)) UNKNOWN_ERROR).
Proof.
  intros H1 H2 s. unfold _classify_error, yields. rewrite H1, H2.
  fold s.
  destruct (Z.eqb_spec s 401) as [E1|N1];
    [repeat split; intros; try lia; eauto|].
  destruct (Z.eqb_spec s 403) as [E2|N2];
    [repeat split; intros; try lia; eauto|].
  destruct (Z.eqb_spec s 429) as [E3|N3].
  { repeat split; intros; try lia. now rewrite E3. }
  destruct (Z.leb_spec 400 s), (Z.ltb_spec s 500); simpl;
    try (repeat split; intros; try lia; eauto; fail);
    destruct (Z.leb_spec 500 s), (Z.ltb_spec s 600); simpl;
    repeat split; intros; try lia; eauto.
Qed.

(** Without a response, and without a timeout or a connection error, the
    result is an unknown error that carries [str(exception)]. *)
Lemma classify_no_response (exception : option PyException) :
  isinstance exception isinstance_Timeout = false ->
  isinstance exception isinstance_ConnectionError = false ->
  _classify_error exception None
  = Return (mkAPIError UNKNOWN_ERROR (str exception) None None exception).
Proof. intros H1 H2. unfold _classify_error. now rewrite H1, H2. Qed.

(** The only way for the function to raise: status 429, reached past the
    two [isinstance] tests, with a [Retry-After] value that [int] does not
    read. *)
Lemma classify_raises (exception : option PyException)
    (response : option Response.t) (e : PyException) :
  _classify_error exception response = Raise e ->
  exists r name v,
    response = Some r
    /\ Response.status_code r = 429%Z
    /\ Response.headers r !! "retry-after" = Some (name, v)
    /\ parse_int v = None.
Proof.
  unfold _classify_error.
  destruct (isinstance exception isinstance_Timeout); [discriminate|].
  destruct (isinstance exception isinstance_ConnectionError);
    [discriminate|].
  destruct response as [r|]; [|discriminate].
  destruct (Z.eqb_spec (Response.status_code r) 401); [discriminate|].
  destruct (Z.eqb_spec (Response.status_code r) 403); [discriminate|].
  destruct (Z.eqb_spec (Response.status_code r) 429) as [E|_].
  - header_lookup.
    destruct (Response.headers r !! "retry-after") as [[name v]|] eqn:Hh;
      [|discriminate].
    simpl. destruct (parse_int v) eqn:Hp; [discriminate|].
    intros _. now exists r, name, v.
  - destruct (_ && _); [discriminate|].
    destruct (_ && _); discriminate.
Qed.

End Classify.

(** C3: the mapping of [_classify_error], read in the order of its tests.
    An exception that is a [Timeout] gives the kind timeout; otherwise one
    that is a [ConnectionError] gives network; otherwise a response gives
    authentication for 401, authorization for 403, rate_limit for 429 with
    the integer read from its [Retry-After] header as [retry_after] (and
    rate_limit too when the header is absent), client for the rest of
    400-499 and server for 500-599; everything else gives unknown. *)
Theorem classify_error_mapping (exception : option PyException)
    (response : option Response.t) :
  let result := RobustAPIClient._classify_error exception response in
  let timeout := RobustAPIClient.isinstance exception isinstance_Timeout in
  let connection :=
    RobustAPIClient.isinstance exception isinstance_ConnectionError in
  (timeout = true -> yields result TIMEOUT_ERROR)
  /\ (timeout = false -> connection = true -> yields result NETWORK_ERROR)
  /\ (timeout = false -> connection = false ->
      match response with
      | Some r =>
          let s := Response.status_code r in
          (s = 401%Z -> yields result AUTHENTICATION_ERROR)
          /\ (s = 403%Z -> yields result AUTHORIZATION_ERROR)
          /\ (s = 429%Z ->
              forall name v n,
                Response.headers r !! "retry-after" = Some (name, v) ->
                parse_int v = Some n ->
                exists error,
                  result = Return error
                  /\ error_type error = RATE_LIMIT_ERROR
                  /\ retry_after error = Some n)
          /\ (s = 429%Z -> Response.headers r !! "retry-after" = None ->
              yields result RATE_LIMIT_ERROR)
          /\ ((400 <= s < 500)%Z -> s ≠ 401%Z -> s ≠ 403%Z -> s ≠ 429%Z ->
              yields result CLIENT_ERROR)
          /\ ((500 <= s < 600)%Z -> yields result SERVER_ERROR)
          /\ (~ (400 <= s < 600)%Z -> yields result UNKNOWN_ERROR)
      | None => yields result UNKNOWN_ERROR
      end).
Proof.
  intros result timeout connection. subst result timeout connection.
  split; [|split].
  - intros H. rewrite (classify_timeout _ _ H). eexists; split; reflexivity.
  - intros H1 H2. rewrite (classify_connection _ _ H1 H2).
    eexists; split; reflexivity.
  - intros H1 H2. destruct response as [r|].
    + destruct (classify_response exception r H1 H2)
        as (A & B & C & D & E & F).
      repeat split; try assumption.
      * intros Hs name v n Hh Hp. rewrite (C Hs).
        header_lookup.
        rewrite Hh. simpl. rewrite Hp. simpl.
        eexists; repeat split.
      * intros Hs Hh. rewrite (C Hs).
        header_lookup.
        rewrite Hh. eexists; split; reflexivity.
    + rewrite (classify_no_response _ H1 H2). eexists; split; reflexivity.
Qed.

Lemma classify_error_mapping_witness :
  yields (RobustAPIClient._classify_error
            (Some (mkException ConnectionError "Connection refused")) None)
         NETWORK_ERROR
  /\ (exists error,
        RobustAPIClient._classify_error None
          (Some (Response.mk 429
                   (CaseInsensitiveDict.set "Retry-After" "120" ∅)
                   (Return VNone)))
        = Return error
        /\ error_type error = RATE_LIMIT_ERROR
        /\ retry_after error = Some 120%Z)
  /\ yields (RobustAPIClient._classify_error None
               (Some (Response.mk 503 ∅ (Return VNone))))
            SERVER_ERROR.
Proof.
  split; [|split].
  - apply (classify_error_mapping
             (Some (mkException ConnectionError "Connection refused")) None);
      reflexivity.
  - pose proof (classify_error_mapping None
        (Some (Response.mk 429
                 (CaseInsensitiveDict.set "Retry-After" "120" ∅)
                 (Return VNone)))) as (_ & _ & H).
    destruct (H eq_refl eq_refl) as (_ & _ & H429 & _).
    apply (H429 eq_refl "Retry-After" "120" 120%Z); reflexivity.
  - pose proof (classify_error_mapping None
        (Some (Response.mk 503 ∅ (Return VNone)))) as (_ & _ & H).
    destruct (H eq_refl eq_refl) as (_ & _ & _ & _ & _ & H5xx & _).
    apply H5xx. simpl. lia.
Defined.

(** Without a [Retry-After] header a 429 response gets [retry_after = 60]. *)
Lemma classify_retry_after_default (exception : option PyException)
    (r : Response.t) :
  RobustAPIClient.isinstance exception isinstance_Timeout = false ->
  RobustAPIClient.isinstance exception isinstance_ConnectionError = false ->
  Response.status_code r = 429%Z ->
  Response.headers r !! "retry-after" = None ->
  RobustAPIClient._classify_error exception (Some r)
  = Return (mkAPIError RATE_LIMIT_ERROR "Rate limit exceeded"
              (Some 429%Z) (Some 60%Z) None).
Proof.
  intros H1 H2 Hs Hh.
  destruct (classify_response exception r H1 H2) as (_ & _ & C & _).
  rewrite (C Hs). header_lookup. now rewrite Hh.
Qed.

(** C4, at the input where the code leaves it: a 429 response whose
    [Retry-After] header holds an HTTP date, which [int] does not read.
    The call raises [ValueError] and returns no [APIError]. *)
Theorem classify_error_raises_on_http_date :
  RobustAPIClient._classify_error None
    (Some (Response.mk 429
             (CaseInsensitiveDict.set "Retry-After"
                "Wed, 21 Oct 2015 07:28:00 GMT" ∅)
             (Return VNone)))
  = Raise (mkException ValueError
             "invalid literal for int() with base 10: 'Wed, 21 Oct 2015 07:28:00 GMT'").
Proof. reflexivity. Qed.

(** ** [RobustAPIClient._make_request_with_retry] *)

Section RetryLoop.

Import RobustAPIClient.

Variable self : RobustAPIClient.t.
Variable env : Environment.
Hypothesis Husable : usable (retry_strategy self).

Lemma failure_carries (error : APIError) (with_status : bool) :
  carries (failure error with_status) error.
Proof.
  unfold carries, failure.
  destruct with_status; repeat split; try reflexivity.
  - right. reflexivity.
  - left. reflexivity.
Qed.

Lemma time_sleep_nonneg (secs : Q) :
  (0 <= secs)%Q -> time_sleep secs = Return tt.
Proof.
  intros H. unfold time_sleep. apply Qle_bool_iff in H. now rewrite H.
Qed.

Lemma should_retry_true_below (error : APIError) (attempt : Z) :
  RetryStrategy.should_retry (retry_strategy self) error attempt = true ->
  (attempt < RetryStrategy.max_retries (retry_strategy self))%Z.
Proof.
  rewrite should_retry_closed_form. intros H.
  apply andb_true_iff in H as [H _]. now apply Z.ltb_lt.
Qed.

(** The two handlers that may go on with the loop do not raise: the
    error they classify is a timeout or a network error, whose delay is
    the exponential one. *)
Lemma except_transient_ok (attempt : Z) (e : PyException) :
  isinstance_Timeout (exc_class e) = true
  \/ isinstance_ConnectionError (exc_class e) = true ->
  exists r error,
    except_transient self env attempt e = (r, [error])
    /\ iteration_ok self env attempt false (r, [error]).
Proof.
  intros Hclass. unfold except_transient.
  assert (Hc : exists error,
             _classify_error (Some e) None = Return error
             /\ RetryStrategy.retry_after_path error = false).
  { destruct (isinstance_Timeout (exc_class e)) eqn:Ht.
    - rewrite (classify_timeout (Some e) None Ht). now eexists.
    - destruct Hclass as [|Hn]; [discriminate|].
      rewrite (classify_connection (Some e) None Ht Hn). now eexists. }
  destruct Hc as (error & -> & Hpath).
  destruct (RetryStrategy.should_retry _ error attempt) eqn:Hretry; simpl.
  - destruct (get_delay_backoff_nonneg (retry_strategy self) attempt error
                (time_time env attempt) Hpath Husable) as (d & -> & Hd).
    unfold mbind, outcome_bind. rewrite (time_sleep_nonneg d Hd).
    eexists _, error. split; [reflexivity|].
    now apply should_retry_true_below with error.
  - eexists _, error. split; [reflexivity|].
    right. exists error. split; [reflexivity | exact (failure_carries error false)].
Qed.

Lemma except_Exception_ok (attempt : Z) (e : PyException) :
  exists r error,
    except_Exception e = (r, [error])
    /\ iteration_ok self env attempt false (r, [error]).
Proof.
  unfold except_Exception.
  destruct (_classify_error (Some e) None) as [error|e'] eqn:Hc.
  - eexists _, error. split; [reflexivity|].
    right. exists error. split; [reflexivity | exact (failure_carries error false)].
  - apply classify_raises in Hc as (r & _ & _ & Hr & _). discriminate.
Qed.

(** The [try] body may raise; what it raises is caught by a handler. *)
Lemma try_block_ok (attempt : Z) :
  iteration_ok self env attempt true (try_block self env attempt).
Proof.
  unfold try_block.
  destruct (session_request env attempt) as [response|e] eqn:Hreq;
    [|reflexivity].
  destruct (Z.eqb_spec (Response.status_code response) 200) as [H200|_].
  - destruct (Response.json response) as [data|e]; [|reflexivity].
    left. split; [reflexivity|]. now exists response.
  - destruct (_classify_error None (Some response)) as [error|e];
      [|reflexivity].
    destruct (RetryStrategy.should_retry _ error attempt) eqn:Hretry; simpl.
    + destruct (ErrorHandler.handle_error _ error); simpl.
      * destruct (RetryStrategy.get_delay _ attempt error _) as [d|e];
          [|reflexivity].
        unfold mbind, outcome_bind.
        destruct (time_sleep d); [|reflexivity].
        now apply should_retry_true_below with error.
      * right. exists error. split; [reflexivity | exact (failure_carries error true)].
    + right. exists error. split; [reflexivity | exact (failure_carries error true)].
Qed.

Lemma loop_body_ok (attempt : Z) :
  iteration_ok self env attempt false (loop_body self env attempt).
Proof.
  unfold loop_body.
  pose proof (try_block_ok attempt) as Htry.
  destruct (try_block self env attempt) as [[c|e] produced];
    [destruct c; exact Htry|].
  assert (Hh : exists r error,
             (if isinstance_Timeout (exc_class e)
              then except_transient self env attempt e
              else if isinstance_ConnectionError (exc_class e)
                   then except_transient self env attempt e
                   else except_Exception e) = (r, [error])
             /\ iteration_ok self env attempt false (r, [error])).
  { destruct (isinstance_Timeout (exc_class e)) eqn:Ht;
      [apply except_transient_ok; now left|].
    destruct (isinstance_ConnectionError (exc_class e)) eqn:Hn;
      [apply except_transient_ok; now right|].
    apply except_Exception_ok. }
  destruct Hh as (r & error & -> & Hok).
  destruct r as [[|d]|e']; simpl in *; try assumption.
  destruct Hok as [Hs|(error' & Hlast & Hc)]; [now left|].
  right. exists error'. split; [|assumption].
  rewrite last_snoc. exact Hlast.
Qed.

(** The loop, over any list of attempts whose last one is not below
    [max_retries]: the [return] after the loop is not reached. *)
Lemma for_loop_ok (attempts : list Z) :
  forall (log : list APIError) (final : Z),
    last attempts = Some final ->
    (RetryStrategy.max_retries (retry_strategy self) <= final)%Z ->
    exists d log',
      for_loop self env attempts log = (Return d, log')
      /\ ((succeeded d
           /\ exists attempt, attempt ∈ attempts /\ got_200 env attempt)
          \/ exists error, last log' = Some error /\ carries d error).
Proof.
  induction attempts as [|attempt rest IH]; intros log final Hlast Hfinal;
    [discriminate|].
  simpl. pose proof (loop_body_ok attempt) as Hbody.
  destruct (loop_body self env attempt) as [[[|d]|e] produced];
    simpl in Hbody; [| |discriminate].
  - destruct rest as [|next rest'].
    + simpl in Hlast. injection Hlast as <-. lia.
    + rewrite last_cons_cons in Hlast.
      destruct (IH (log ++ produced)%list final Hlast Hfinal)
        as (d & log' & Hrun & [(Hs & a & Ha & Hg)|Hfail]).
      * exists d, log'. split; [exact Hrun|]. left. split; [exact Hs|].
        exists a. split; [now apply list_elem_of_further | exact Hg].
      * exists d, log'. split; [exact Hrun | now right].
  - exists d, (log ++ produced)%list. split; [reflexivity|].
    destruct Hbody as [[Hs Hg]|(error & Hl & Hc)].
    { left. split; [exact Hs|]. exists attempt.
      split; [apply list_elem_of_here | exact Hg]. }
    right. exists error. split; [|assumption].
    rewrite last_app, Hl. reflexivity.
Qed.

Lemma range_last (n : Z) : (0 <= n)%Z -> last (range (n + 1)) = Some n.
Proof.
  intros Hn. unfold range.
  rewrite seqZ_app by lia. simpl. apply last_snoc.
Qed.

(** The whole call, for a strategy with [max_retries >= 0]. *)
Lemma make_request_with_retry_ok :
  (0 <= RetryStrategy.max_retries (retry_strategy self))%Z ->
  exists d log,
    _make_request_with_retry self env = (Return d, log)
    /\ ((succeeded d /\ exists attempt, got_200 env attempt)
        \/ exists error, last log = Some error /\ carries d error).
Proof.
  intros Hmax. unfold _make_request_with_retry.
  destruct (for_loop_ok
              (range (RetryStrategy.max_retries (retry_strategy self) + 1))
              [] (RetryStrategy.max_retries (retry_strategy self)))
    as (d & log & Hrun & [(Hs & a & _ & Hg)|Hfail]);
    [now apply range_last | lia | |].
  - exists d, log. split; [exact Hrun|]. left. split; [exact Hs|].
    now exists a.
  - exists d, log. split; [exact Hrun | now right].
Qed.

End RetryLoop.

(** With [max_retries < 0] the loop has no iteration and the [return]
    after it is reached: the dictionary it gives names no error. *)
Lemma make_request_no_attempt (self : RobustAPIClient.t) (env : Environment) :
  (RetryStrategy.max_retries (RobustAPIClient.retry_strategy self) < 0)%Z ->
  RobustAPIClient._make_request_with_retry self env
  = (Return RobustAPIClient.max_retries_exceeded, []).
Proof.
  intros H. unfold RobustAPIClient._make_request_with_retry,
    RobustAPIClient.range.
  rewrite seqZ_nil by lia. reflexivity.
Qed.



(** Every attempt answered with 500: the fourth failure is returned, built
    from the fourth classified error. *)
Example make_request_all_500 :
  let error :=
    mkAPIError SERVER_ERROR "Server error: 500" (Some 500%Z) None None in
  RobustAPIClient._make_request_with_retry RobustAPIClient.__init__
    (mkEnvironment (fun _ => Return (Response.mk 500 ∅ (Return VNone)))
                   (fun _ => 0%Q))
  = (Return (RobustAPIClient.failure error true),
     [error; error; error; error]).
Proof. vm_compute. reflexivity. Qed.

(** Two answers with 500, then one with 200: the third attempt succeeds. *)
Example make_request_500_500_200 :
  RobustAPIClient._make_request_with_retry RobustAPIClient.__init__
    (mkEnvironment
       (fun attempt =>
          if (attempt <? 2)%Z
          then Return (Response.mk 500 ∅ (Return VNone))
          else Return (Response.mk 200 ∅ (Return (VJson "{}"))))
       (fun _ => 1 # 2)%Q)
  = (Return {[ "success" := VBool true; "data" := VJson "{}";
               "status_code" := VInt 200 ]},
     [mkAPIError SERVER_ERROR "Server error: 500" (Some 500%Z) None None;
      mkAPIError SERVER_ERROR "Server error: 500" (Some 500%Z) None None]).
Proof. vm_compute. reflexivity. Qed.

(** Inside the loop the [ValueError] of [_classify_error] is caught by the
    last handler: the first attempt ends the call with an unknown error
    and the rate limit is not retried. *)
Example make_request_429_http_date :
  RobustAPIClient._make_request_with_retry RobustAPIClient.__init__
    (mkEnvironment
       (fun _ => Return (Response.mk 429
                           (CaseInsensitiveDict.set "Retry-After"
                              "Wed, 21 Oct 2015 07:28:00 GMT" ∅)
                           (Return VNone)))
       (fun _ => 0%Q))
  = (let e := mkException ValueError
       "invalid literal for int() with base 10: 'Wed, 21 Oct 2015 07:28:00 GMT'" in
     let error := mkAPIError UNKNOWN_ERROR (exc_str e) None None (Some e) in
     (Return (RobustAPIClient.failure error false), [error])).
Proof. vm_compute. reflexivity. Qed.

(** * Further properties *)

(** ** [ErrorHandler] *)

(** The callbacks that [_setup_error_callbacks] leaves in the handler of a
    new client. *)
Lemma built_callbacks (kind : ErrorType) :
  ErrorHandler.error_callbacks
    (RobustAPIClient.error_handler RobustAPIClient.__init__) !! kind
  = match kind with
    | AUTHENTICATION_ERROR => Some RobustAPIClient.handle_auth_error
    | RATE_LIMIT_ERROR => Some RobustAPIClient.handle_rate_limit
    | SERVER_ERROR => Some RobustAPIClient.handle_server_error
    | _ => None
    end.
Proof. destruct kind; reflexivity. Qed.

(** X1: on the handler of a new client, [handle_error] answers true exactly
    for the kinds authentication, rate_limit, server and network, whatever
    the other fields of the error.  An authentication error counts as
    handled because its callback returns, although the default handling
    rejects it; a rate-limit error counts as handled also when its callback
    raises (a negative or missing [retry_after]). *)
Theorem handle_error_of_new_client (error : APIError) :
  ErrorHandler.handle_error
    (RobustAPIClient.error_handler RobustAPIClient.__init__) error
  = bool_decide (error_type error ∈
      [AUTHENTICATION_ERROR; RATE_LIMIT_ERROR; SERVER_ERROR; NETWORK_ERROR]).
Proof.
  unfold ErrorHandler.handle_error. rewrite built_callbacks.
  destruct error as [kind msg status after exc]. simpl.
  destruct kind; try reflexivity.
  unfold RobustAPIClient.handle_rate_limit. simpl.
  destruct after as [n|]; [|reflexivity].
  destruct (time_sleep (inject_Z n)); reflexivity.
Qed.

(** X2: [register_callback] changes the handling of one kind only.  An
    error of another kind is handled as before; for the kind itself the
    callback registered last decides (handled when it returns, the default
    handling when it raises), and registering again replaces the earlier
    callback. *)
Theorem register_callback_handling (self : ErrorHandler.t)
    (kind : ErrorType) (callback earlier : ErrorHandler.Callable)
    (error : APIError) :
  (error_type error ≠ kind ->
   ErrorHandler.handle_error
     (ErrorHandler.register_callback self kind callback) error
   = ErrorHandler.handle_error self error)
  /\ (error_type error = kind ->
      ErrorHandler.handle_error
        (ErrorHandler.register_callback self kind callback) error
      = match callback error with
        | Return _ => true
        | Raise _ => ErrorHandler._default_error_handling error
        end)
  /\ ErrorHandler.register_callback
       (ErrorHandler.register_callback self kind earlier) kind callback
     = ErrorHandler.register_callback self kind callback.
Proof.
  unfold ErrorHandler.handle_error, ErrorHandler.register_callback. simpl.
  split; [|split].
  - intros Hne. rewrite lookup_insert_ne by congruence. reflexivity.
  - intros <-. rewrite lookup_insert_eq. reflexivity.
  - rewrite insert_insert_eq. reflexivity.
Qed.

Lemma register_callback_handling_witness :
  let self := RobustAPIClient.error_handler RobustAPIClient.__init__ in
  let raising : ErrorHandler.Callable :=
    fun _ => Raise (mkException OtherException "callback failed") in
  let timeout := mkAPIError TIMEOUT_ERROR "Request timeout" None None None in
  let server :=
    mkAPIError SERVER_ERROR "Server error: 500" (Some 500%Z) None None in
  ErrorHandler.handle_error
    (ErrorHandler.register_callback self SERVER_ERROR raising) timeout
  = ErrorHandler.handle_error self timeout
  /\ ErrorHandler.handle_error
       (ErrorHandler.register_callback self SERVER_ERROR raising) server
     = true.
Proof.
  intros self raising timeout server. split.
  - destruct (register_callback_handling self SERVER_ERROR raising raising
                timeout) as (H & _ & _).
    apply H. intros Heq. vm_compute in Heq. discriminate.
  - destruct (register_callback_handling self SERVER_ERROR raising raising
                server) as (_ & H & _).
    rewrite (H eq_refl). reflexivity.
Defined.

(** X3: in the loop of a new client the test on [handle_error] never stops
    a retry.  An error that comes from classifying a response and that
    [should_retry] accepts, under any strategy and at any attempt, is a
    server or a rate-limit error, and the handler answers true for both; a
    timeout, which the handler would reject, never comes from a response. *)
Theorem handle_error_never_stops_retry (strategy : RetryStrategy.t)
    (response : Response.t) (error : APIError) (attempt : Z) :
  RobustAPIClient._classify_error None (Some response) = Return error ->
  RetryStrategy.should_retry strategy error attempt = true ->
  ErrorHandler.handle_error
    (RobustAPIClient.error_handler RobustAPIClient.__init__) error = true.
Proof.
  intros Hc Hretry.
  rewrite should_retry_closed_form in Hretry.
  apply andb_true_iff in Hretry as [_ Hkind].
  apply bool_decide_eq_true, list_elem_of_In in Hkind. simpl in Hkind.
  unfold ErrorHandler.handle_error. rewrite built_callbacks.
  unfold RobustAPIClient._classify_error in Hc. simpl in Hc.
  destruct (Response.status_code response =? 401)%Z;
    [injection Hc as <-; simpl in *; intuition discriminate|].
  destruct (Response.status_code response =? 403)%Z;
    [injection Hc as <-; simpl in *; intuition discriminate|].
  destruct (Response.status_code response =? 429)%Z.
  { destruct (int_ _) as [n|]; [|discriminate]. injection Hc as <-.
    clear Hkind. simpl. unfold RobustAPIClient.handle_rate_limit. simpl.
    destruct (time_sleep (inject_Z n)); reflexivity. }
  destruct (_ && _); [injection Hc as <-; simpl in *; intuition discriminate|].
  destruct (_ && _); injection Hc as <-; simpl in *;
    [reflexivity | intuition discriminate].
Qed.

Lemma handle_error_never_stops_retry_witness :
  let response := Response.mk 503 ∅ (Return VNone) in
  let error :=
    mkAPIError SERVER_ERROR "Server error: 503" (Some 503%Z) None None in
  RobustAPIClient._classify_error None (Some response) = Return error
  /\ RetryStrategy.should_retry RetryStrategy.default error 2 = true
  /\ ErrorHandler.handle_error
       (RobustAPIClient.error_handler RobustAPIClient.__init__) error = true.
Proof.
  intros response error. split; [reflexivity|]. split; [reflexivity|].
  apply (handle_error_never_stops_retry RetryStrategy.default response
           error 2%Z); reflexivity.
Defined.

(** ** More on [_classify_error] *)

(** Every way the function has to return, with the error it builds. *)
Lemma classify_cases (exception : option PyException)
    (response : option Response.t) (error : APIError) :
  RobustAPIClient._classify_error exception response = Return error ->
  let timeout := RobustAPIClient.isinstance exception isinstance_Timeout in
  let connection :=
    RobustAPIClient.isinstance exception isinstance_ConnectionError in
  (timeout = true
   /\ error = mkAPIError TIMEOUT_ERROR "Request timeout" None None exception)
  \/ (timeout = false /\ connection = true
      /\ error
         = mkAPIError NETWORK_ERROR "Connection error" None None exception)
  \/ (timeout = false /\ connection = false
      /\ ((exists r s,
             response = Some r /\ Response.status_code r = s
             /\ ((s = 401%Z
                  /\ error = mkAPIError AUTHENTICATION_ERROR
                               "Authentication failed" (Some s) None None)
                 \/ (s = 403%Z
                     /\ error = mkAPIError AUTHORIZATION_ERROR
                                  "Access forbidden" (Some s) None None)
                 \/ (s = 429%Z
                     /\ exists n,
                          error = mkAPIError RATE_LIMIT_ERROR
                                    "Rate limit exceeded" (Some s) (Some n)
                                    None)
                 \/ ((400 <= s < 500)%Z /\ s ≠ 401%Z /\ s ≠ 403%Z
                     /\ s ≠ 429%Z
                     /\ error = mkAPIError CLIENT_ERROR
                                  ("Client error: " +:+ pretty s) (Some s)
                                  None None)
                 \/ ((500 <= s < 600)%Z
                     /\ error = mkAPIError SERVER_ERROR
                                  ("Server error: " +:+ pretty s) (Some s)
                                  None None)))
          \/ ((response = None
               \/ exists r, response = Some r
                            /\ ~ (400 <= Response.status_code r < 600)%Z)
              /\ error = mkAPIError UNKNOWN_ERROR
                           (RobustAPIClient.str exception) None None
                           exception))).
Proof.
  intros Hc timeout connection. subst timeout connection.
  unfold RobustAPIClient._classify_error in Hc.
  destruct (RobustAPIClient.isinstance exception isinstance_Timeout);
    [left; split; [reflexivity | congruence]|].
  destruct (RobustAPIClient.isinstance exception isinstance_ConnectionError);
    [right; left; repeat split; congruence|].
  right; right. split; [reflexivity|]. split; [reflexivity|].
  destruct response as [r|];
    [|right; split; [now left | congruence]].
  destruct (Z.eqb_spec (Response.status_code r) 401) as [E|N1].
  { left. exists r, (Response.status_code r). repeat split.
    left. split; [exact E | congruence]. }
  destruct (Z.eqb_spec (Response.status_code r) 403) as [E|N2].
  { left. exists r, (Response.status_code r). repeat split.
    right; left. split; [exact E | congruence]. }
  destruct (Z.eqb_spec (Response.status_code r) 429) as [E|N3].
  { left. exists r, (Response.status_code r). repeat split.
    right; right; left. split; [exact E|].
    destruct (int_ _) as [n|]; [|discriminate]. exists n.
    simpl in Hc. congruence. }
  destruct (Z.leb_spec 400 (Response.status_code r)),
           (Z.ltb_spec (Response.status_code r) 500); simpl in Hc;
    try (left; exists r, (Response.status_code r); repeat split;
         do 3 right; left; repeat split; (lia || congruence)).
  all: destruct (Z.leb_spec 500 (Response.status_code r)),
                (Z.ltb_spec (Response.status_code r) 600); simpl in Hc;
    try (left; exists r, (Response.status_code r); repeat split;
         do 4 right; repeat split; (lia || congruence)).
  all: right; split; [right; exists r; split; [reflexivity | lia]
                     | congruence].
Qed.

(** Splits a returned classification into its eight cases. *)
Ltac classify_by_cases H :=
  apply classify_cases in H; simpl in H;
  destruct H as
    [(Ht & ->)
    |[(Ht & Hn & ->)
     |(Ht & Hn &
       [(r & s & -> & Hs &
         [(-> & ->)|[(-> & ->)|[(-> & n & ->)
          |[(Hr & N1 & N2 & N3 & ->)|(Hr & ->)]]]])
       |(Hresp & ->)])]];
  simpl.

(** X4: the kind of a returned error tells what was classified.  Timeout
    and network come from the class of the exception; authentication,
    authorization and rate_limit from the statuses 401, 403 and 429; client
    from the rest of 400-499; server from 500-599; unknown from a missing
    response or a status outside 400-599.  The kind validation is never
    produced. *)
Theorem classify_kind_tells_cause (exception : option PyException)
    (response : option Response.t) (error : APIError) :
  RobustAPIClient._classify_error exception response = Return error ->
  let timeout := RobustAPIClient.isinstance exception isinstance_Timeout in
  let connection :=
    RobustAPIClient.isinstance exception isinstance_ConnectionError in
  let status_in (P : Z -> Prop) :=
    timeout = false /\ connection = false
    /\ exists r, response = Some r /\ P (Response.status_code r) in
  match error_type error with
  | TIMEOUT_ERROR => timeout = true
  | NETWORK_ERROR => timeout = false /\ connection = true
  | AUTHENTICATION_ERROR => status_in (fun s => s = 401%Z)
  | AUTHORIZATION_ERROR => status_in (fun s => s = 403%Z)
  | RATE_LIMIT_ERROR => status_in (fun s => s = 429%Z)
  | CLIENT_ERROR =>
      status_in (fun s => (400 <= s < 500)%Z /\ s ≠ 401%Z /\ s ≠ 403%Z
                          /\ s ≠ 429%Z)
  | SERVER_ERROR => status_in (fun s => (500 <= s < 600)%Z)
  | VALIDATION_ERROR => False
  | UNKNOWN_ERROR =>
      timeout = false /\ connection = false
      /\ (response = None
          \/ exists r, response = Some r
                       /\ ~ (400 <= Response.status_code r < 600)%Z)
  end.
Proof.
  intros Hc timeout connection status_in.
  subst timeout connection status_in.
  classify_by_cases Hc; try subst s; eauto 10.
Qed.

Lemma classify_kind_tells_cause_witness :
  let response := Response.mk 404 ∅ (Return VNone) in
  exists r, Some response = Some r
            /\ (400 <= Response.status_code r < 500)%Z
            /\ Response.status_code r ≠ 429%Z.
Proof.
  intros response.
  pose proof (classify_kind_tells_cause None (Some response)
                (mkAPIError CLIENT_ERROR "Client error: 404" (Some 404%Z)
                   None None) eq_refl) as (_ & _ & r & Hr & Hs & _ & _ & N).
  exists r. repeat split; try assumption; apply Hs.
Defined.

(** X5: a returned error has a [retry_after] exactly when its kind is
    rate_limit: the classifier fills the field for a 429 response, with the
    header or with 60, and for nothing else. *)
Theorem classify_retry_after_iff_rate_limit (exception : option PyException)
    (response : option Response.t) (error : APIError) :
  RobustAPIClient._classify_error exception response = Return error ->
  (is_Some (retry_after error) <-> error_type error = RATE_LIMIT_ERROR).
Proof.
  intros Hc.
  classify_by_cases Hc;
    (split; [intros [x Hx]; discriminate || reflexivity
            | intros Hk; discriminate || eauto]).
Qed.

Lemma classify_retry_after_iff_rate_limit_witness :
  exists error,
    RobustAPIClient._classify_error None
      (Some (Response.mk 429 ∅ (Return VNone))) = Return error
    /\ (is_Some (retry_after error) <-> error_type error = RATE_LIMIT_ERROR)
    /\ retry_after error = Some 60%Z.
Proof.
  eexists. split; [reflexivity|]. split; [|reflexivity].
  apply (classify_retry_after_iff_rate_limit None
           (Some (Response.mk 429 ∅ (Return VNone)))).
  reflexivity.
Defined.

(** X6: a returned error keeps the status of the response exactly when its
    kind comes from a status (authentication, authorization, rate_limit,
    client, server), and then it holds no exception.  A timeout, network or
    unknown error has no status, even when a response was passed (a status
    such as 302 is dropped), and holds the exception it was called with. *)
Theorem classify_status_and_exception (exception : option PyException)
    (response : option Response.t) (error : APIError) :
  RobustAPIClient._classify_error exception response = Return error ->
  (error_type error ∈
     [AUTHENTICATION_ERROR; AUTHORIZATION_ERROR; RATE_LIMIT_ERROR;
      CLIENT_ERROR; SERVER_ERROR] ->
   exists r, response = Some r
             /\ status_code error = Some (Response.status_code r)
             /\ original_exception error = None)
  /\ (error_type error ∈ [TIMEOUT_ERROR; NETWORK_ERROR; UNKNOWN_ERROR] ->
      status_code error = None /\ original_exception error = exception).
Proof.
  intros Hc.
  classify_by_cases Hc; try subst s;
    (split; intros Hin; apply list_elem_of_In in Hin; simpl in Hin;
     first [ exfalso; intuition discriminate
           | split; reflexivity
           | eexists; repeat split; congruence ]).
Qed.

Lemma classify_status_and_exception_witness :
  let moved := Response.mk 302 ∅ (Return VNone) in
  exists error,
    RobustAPIClient._classify_error None (Some moved) = Return error
    /\ error_type error = UNKNOWN_ERROR
    /\ status_code error = None.
Proof.
  intros moved. eexists. split; [reflexivity|]. split; [reflexivity|].
  destruct (classify_status_and_exception None (Some moved) _ eq_refl)
    as (_ & H).
  apply H. simpl. repeat constructor.
Defined.

(** ** More on [RetryStrategy.get_delay] *)







(** ** More on [RobustAPIClient._make_request_with_retry] *)

Section WholeCalls.

Import RobustAPIClient.

Variable self : RobustAPIClient.t.
Variable env : Environment.

Lemma iterations_le_length (attempts : list Z) :
  (iterations self env attempts <= length attempts)%nat.
Proof.
  induction attempts as [|attempt rest IH]; simpl; [lia|].
  destruct (loop_body self env attempt) as [[[|d]|e] produced]; lia.
Qed.

Lemma range_first (n : Z) :
  (0 <= n)%Z -> range (n + 1) = 0%Z :: seqZ 1 n.
Proof.
  intros Hn. unfold range. rewrite seqZ_cons by lia.
  f_equal. f_equal; lia.
Qed.

(** A first iteration that returns ends the call after one request. *)
Lemma first_attempt_returns (d : gmap string PyVal)
    (produced : list APIError) :
  (0 <= RetryStrategy.max_retries (retry_strategy self))%Z ->
  loop_body self env 0 = (Return (Result d), produced) ->
  _make_request_with_retry self env = (Return d, produced)
  /\ requests_sent self env = 1%nat.
Proof.
  intros Hmax Hbody. unfold _make_request_with_retry, requests_sent.
  rewrite (range_first _ Hmax). simpl. now rewrite Hbody.
Qed.

(** A first iteration that raises ends the call too. *)
Lemma first_attempt_raises (e : PyException) (produced : list APIError) :
  (0 <= RetryStrategy.max_retries (retry_strategy self))%Z ->
  loop_body self env 0 = (Raise e, produced) ->
  _make_request_with_retry self env = (Raise e, produced)
  /\ requests_sent self env = 1%nat.
Proof.
  intros Hmax Hbody. unfold _make_request_with_retry, requests_sent.
  rewrite (range_first _ Hmax). simpl. now rewrite Hbody.
Qed.

(** The iteration on a response that is not retried. *)
Lemma loop_body_not_retried (attempt : Z) (response : Response.t)
    (error : APIError) :
  session_request env attempt = Return response ->
  Response.status_code response ≠ 200%Z ->
  _classify_error None (Some response) = Return error ->
  RetryStrategy.should_retry (retry_strategy self) error attempt = false ->
  loop_body self env attempt = (Return (Result (failure error true)), [error]).
Proof.
  intros Hreq Hs Hc Hretry. unfold loop_body, try_block.
  rewrite Hreq.
  destruct (Z.eqb_spec (Response.status_code response) 200);
    [contradiction|].
  now rewrite Hc, Hretry.
Qed.

(** The iteration in which the [try] raises an exception that is neither a
    timeout nor a connection error. *)
Lemma loop_body_unexpected (attempt : Z) (e : PyException) :
  session_request env attempt = Raise e
  \/ (exists response,
        session_request env attempt = Return response
        /\ Response.status_code response = 200%Z
        /\ Response.json response = Raise e) ->
  isinstance_Timeout (exc_class e) = false ->
  isinstance_ConnectionError (exc_class e) = false ->
  let error := mkAPIError UNKNOWN_ERROR (exc_str e) None None (Some e) in
  loop_body self env attempt
  = (Return (Result (failure error false)), [error]).
Proof.
  intros Hreq Ht Hn error.
  assert (Htry : try_block self env attempt = (Raise e, [])).
  { unfold try_block.
    destruct Hreq as [->|(response & -> & Hs & Hj)]; [reflexivity|].
    rewrite Hs. simpl. now rewrite Hj. }
  unfold loop_body. rewrite Htry, Ht, Hn.
  unfold except_Exception, _classify_error. simpl. now rewrite Ht, Hn.
Qed.

End WholeCalls.


(** A response whose status is not 429 and is outside 500-599 is
    classified, and its error is retried at no attempt by any strategy. *)
Lemma classify_unretried_status (response : Response.t) :
  Response.status_code response ≠ 429%Z ->
  ~ (500 <= Response.status_code response < 600)%Z ->
  exists error,
    RobustAPIClient._classify_error None (Some response) = Return error
    /\ forall strategy attempt,
         RetryStrategy.should_retry strategy error attempt = false.
Proof.
  intros H429 H5xx.
  destruct (RobustAPIClient._classify_error None (Some response))
    as [error|e] eqn:Hc.
  - exists error. split; [reflexivity|]. intros strategy attempt.
    rewrite should_retry_closed_form.
    apply andb_false_iff. right. apply bool_decide_eq_false.
    intros Hin. apply list_elem_of_In in Hin. simpl in Hin.
    remember (Some response) as given eqn:Hgiven.
    classify_by_cases Hc; simpl in *; try discriminate;
      try (injection Hgiven as <-);
      try (intuition discriminate); try lia.
  - apply classify_raises in Hc as (r & _ & _ & Hr & Hs & _).
    injection Hr as Hr. subst r. contradiction.
Qed.

(** X11: a response that is neither a success nor of a retried kind ends
    the call at once.  When the first response has a status other than 200
    and 429 and outside 500-599, the call returns the failure built from
    its classification, with the status of the error, after that single
    request and whatever the later responses would be. *)
Theorem not_retryable_response_returns_at_once (self : RobustAPIClient.t)
    (env : Environment) (response : Response.t) :
  (0 <= RetryStrategy.max_retries (RobustAPIClient.retry_strategy self))%Z ->
  session_request env 0 = Return response ->
  Response.status_code response ≠ 200%Z ->
  Response.status_code response ≠ 429%Z ->
  ~ (500 <= Response.status_code response < 600)%Z ->
  exists error,
    RobustAPIClient._classify_error None (Some response) = Return error
    /\ RobustAPIClient._make_request_with_retry self env
       = (Return (RobustAPIClient.failure error true), [error])
    /\ requests_sent self env = 1%nat.
Proof.
  intros Hmax Hreq H200 H429 H5xx.
  destruct (classify_unretried_status response H429 H5xx)
    as (error & Hc & Hretry).
  exists error. split; [exact Hc|].
  apply first_attempt_returns; [exact Hmax|].
  now apply loop_body_not_retried with response.
Qed.

Lemma not_retryable_response_returns_at_once_witness :
  let env :=
    mkEnvironment
      (fun attempt =>
         if (attempt =? 0)%Z
         then Return (Response.mk 401 ∅ (Return VNone))
         else Return (Response.mk 200 ∅ (Return (VJson "{}"))))
      (fun _ => 0%Q) in
  exists error,
    RobustAPIClient._make_request_with_retry RobustAPIClient.__init__ env
    = (Return (RobustAPIClient.failure error true), [error])
    /\ requests_sent RobustAPIClient.__init__ env = 1%nat.
Proof.
  intros env.
  destruct (not_retryable_response_returns_at_once RobustAPIClient.__init__
              env (Response.mk 401 ∅ (Return VNone)))
    as (error & _ & Hrun & Hsent);
    [vm_compute; congruence | reflexivity | simpl; lia | simpl; lia
    | simpl; lia |].
  now exists error.
Defined.

(** X12: only the status 200 is a success.  A first response with any
    other status outside 400-599, such as 201, 204 or 302, makes the call
    return a failure of kind unknown_error whose message is the text
    ["None"] and whose status entry is [None]: the status of the response
    is not reported. *)
Theorem other_status_is_unknown_failure (self : RobustAPIClient.t)
    (env : Environment) (response : Response.t) :
  (0 <= RetryStrategy.max_retries (RobustAPIClient.retry_strategy self))%Z ->
  session_request env 0 = Return response ->
  Response.status_code response ≠ 200%Z ->
  ~ (400 <= Response.status_code response < 600)%Z ->
  exists d log,
    RobustAPIClient._make_request_with_retry self env = (Return d, log)
    /\ d !! "success" = Some (VBool false)
    /\ d !! "error" = Some (VStr "None")
    /\ d !! "error_type" = Some (VStr "unknown_error")
    /\ d !! "status_code" = Some VNone.
Proof.
  intros Hmax Hreq H200 Hout.
  destruct (classify_unretried_status response) as (error & Hc & Hretry);
    [lia | lia |].
  destruct (first_attempt_returns self env (RobustAPIClient.failure error true)
              [error] Hmax) as [Hrun _].
  { now apply loop_body_not_retried with response. }
  do 2 eexists. split; [exact Hrun|].
  remember (Some response) as given eqn:Hgiven.
  classify_by_cases Hc; simpl in *; try discriminate;
    try (injection Hgiven as <-); try lia.
  all: repeat split.
Qed.

Lemma other_status_is_unknown_failure_witness :
  let env :=
    mkEnvironment (fun _ => Return (Response.mk 201 ∅ (Return (VJson "{}"))))
                  (fun _ => 0%Q) in
  exists d log,
    RobustAPIClient._make_request_with_retry RobustAPIClient.__init__ env
    = (Return d, log)
    /\ d !! "success" = Some (VBool false)
    /\ d !! "error" = Some (VStr "None")
    /\ d !! "error_type" = Some (VStr "unknown_error")
    /\ d !! "status_code" = Some VNone.
Proof.
  intros env.
  apply (other_status_is_unknown_failure RobustAPIClient.__init__ env
           (Response.mk 201 ∅ (Return (VJson "{}"))));
    [vm_compute; congruence | reflexivity | simpl; lia | simpl; lia].
Defined.

(** X13: an exception that is neither a timeout nor a connection error is
    not retried.  When the first request raises one, or when the first
    response has status 200 and its body does not decode, the call returns
    a failure of kind unknown_error that carries the text of the exception
    and has no status entry, after that single request. *)
Theorem unexpected_exception_returns_at_once (self : RobustAPIClient.t)
    (env : Environment) (e : PyException) :
  (0 <= RetryStrategy.max_retries (RobustAPIClient.retry_strategy self))%Z ->
  session_request env 0 = Raise e
  \/ (exists response,
        session_request env 0 = Return response
        /\ Response.status_code response = 200%Z
        /\ Response.json response = Raise e) ->
  isinstance_Timeout (exc_class e) = false ->
  isinstance_ConnectionError (exc_class e) = false ->
  exists d error,
    RobustAPIClient._make_request_with_retry self env = (Return d, [error])
    /\ error = mkAPIError UNKNOWN_ERROR (exc_str e) None None (Some e)
    /\ d !! "success" = Some (VBool false)
    /\ d !! "error" = Some (VStr (exc_str e))
    /\ d !! "error_type" = Some (VStr "unknown_error")
    /\ d !! "status_code" = None
    /\ requests_sent self env = 1%nat.
Proof.
  intros Hmax Hreq Ht Hn.
  pose proof (loop_body_unexpected self env 0 e Hreq Ht Hn) as Hbody.
  destruct (first_attempt_returns self env _ _ Hmax Hbody) as [Hrun Hsent].
  do 2 eexists. split; [exact Hrun|]. repeat split. exact Hsent.
Qed.

Lemma unexpected_exception_returns_at_once_witness :
  let e := mkException JSONDecodeError "Expecting value: line 1 column 1" in
  let env :=
    mkEnvironment (fun _ => Return (Response.mk 200 ∅ (Raise e)))
                  (fun _ => 0%Q) in
  exists d error,
    RobustAPIClient._make_request_with_retry RobustAPIClient.__init__ env
    = (Return d, [error])
    /\ d !! "error" = Some (VStr (exc_str e))
    /\ requests_sent RobustAPIClient.__init__ env = 1%nat.
Proof.
  intros e env.
  destruct (unexpected_exception_returns_at_once RobustAPIClient.__init__
              env e) as (d & error & Hrun & _ & _ & Herr & _ & _ & Hsent);
    [vm_compute; congruence
    | right; eexists; repeat split
    | reflexivity | reflexivity |].
  now exists d, error.
Defined.

Section Retrying.

Import RobustAPIClient.

Variable strategy : RetryStrategy.t.
Variable env : Environment.
Hypothesis Husable : usable strategy.

(** A retryable response is classified as a server error, or as a
    rate-limit error whose [retry_after] is not negative. *)
Lemma classify_retryable (r : Response.t) :
  retryable_response r ->
  exists error,
    _classify_error None (Some r) = Return error
    /\ (error_type error = SERVER_ERROR
        \/ (error_type error = RATE_LIMIT_ERROR
            /\ exists n, retry_after error = Some n /\ (0 <= n)%Z)).
Proof.
  intros Hr.
  destruct (classify_response None r eq_refl eq_refl)
    as (_ & _ & C & _ & E & _).
  destruct Hr as [H5xx|(H429 & Hheader)].
  - destruct (E H5xx) as (error & Hc & Hk). exists error. now split; [|left].
  - rewrite (C H429). header_lookup.
    destruct Hheader as [->|(name & v & n & -> & Hp & Hn)]; simpl.
    + eexists. split; [reflexivity|]. right. split; [reflexivity|].
      exists 60%Z. split; [reflexivity | lia].
    + rewrite Hp. simpl.
      eexists. split; [reflexivity|]. right. split; [reflexivity|].
      now exists n.
Qed.

(** The delay of such an error exists and is not negative. *)
Lemma get_delay_retryable (error : APIError) (attempt : Z) (now : Q) :
  error_type error = SERVER_ERROR
  \/ (error_type error = RATE_LIMIT_ERROR
      /\ exists n, retry_after error = Some n /\ (0 <= n)%Z) ->
  exists d,
    RetryStrategy.get_delay strategy attempt error now = Return d
    /\ (0 <= d)%Q.
Proof.
  intros [Hk|(Hk & n & Hra & Hn)].
  - apply get_delay_backoff_nonneg; [|exact Husable].
    unfold RetryStrategy.retry_after_path. now rewrite Hk.
  - destruct (Z.eq_dec n 0%Z) as [->|Hnz].
    + apply get_delay_backoff_nonneg; [|exact Husable].
      unfold RetryStrategy.retry_after_path. rewrite Hra.
      apply andb_false_r.
    + exists (inject_Z n). split.
      * now apply get_delay_retry_after_nonzero.
      * unfold Qle. simpl. lia.
Qed.

(** The iteration on a retryable response, below [max_retries], with the
    handler of a new client: the loop goes on. *)
Lemma loop_body_retryable (attempt : Z) (r : Response.t) :
  (attempt < RetryStrategy.max_retries strategy)%Z ->
  session_request env attempt = Return r ->
  retryable_response r ->
  exists error,
    loop_body (mk (error_handler __init__) strategy) env attempt
    = (Return Next, [error]).
Proof.
  intros Hlt Hreq Hr.
  destruct (classify_retryable r Hr) as (error & Hc & Hkind).
  destruct (get_delay_retryable error attempt (time_time env attempt) Hkind)
    as (d & Hd & Hpos).
  exists error. unfold loop_body, try_block. rewrite Hreq.
  destruct (Z.eqb_spec (Response.status_code r) 200) as [E|_].
  { destruct Hr as [?|[? _]]; lia. }
  rewrite Hc. cbn [retry_strategy error_handler].
  assert (Hretry : RetryStrategy.should_retry strategy error attempt = true).
  { rewrite should_retry_closed_form. apply andb_true_iff. split.
    - now apply Z.ltb_lt.
    - apply bool_decide_eq_true.
      destruct Hkind as [->|[-> _]]; repeat constructor. }
  rewrite Hretry. cbn [negb].
  assert (Hhandled : ErrorHandler.handle_error (error_handler __init__) error
                     = true).
  { unfold ErrorHandler.handle_error, ErrorHandler._default_error_handling.
    rewrite built_callbacks.
    destruct Hkind as [Hk|[Hk _]]; rewrite Hk; [reflexivity|].
    now destruct (handle_rate_limit error). }
  rewrite Hhandled. cbn [negb]. rewrite Hd.
  unfold mbind, outcome_bind. now rewrite (time_sleep_nonneg d Hpos).
Qed.

(** The iteration in which the request raises a timeout or a connection
    error, with any handler: the loop goes on below [max_retries] and
    returns the failure otherwise. *)
Lemma loop_body_transient (handler : ErrorHandler.t) (attempt : Z)
    (e : PyException) :
  session_request env attempt = Raise e ->
  isinstance_Timeout (exc_class e) = true
  \/ isinstance_ConnectionError (exc_class e) = true ->
  exists error,
    _classify_error (Some e) None = Return error
    /\ (error_type error = TIMEOUT_ERROR \/ error_type error = NETWORK_ERROR)
    /\ loop_body (mk handler strategy) env attempt
       = (Return (if (attempt <? RetryStrategy.max_retries strategy)%Z
                  then Next else Result (failure error false)),
          [error]).
Proof.
  intros Hreq Hclass.
  assert (Hc : exists error,
             _classify_error (Some e) None = Return error
             /\ (error_type error = TIMEOUT_ERROR
                 \/ error_type error = NETWORK_ERROR)).
  { destruct (isinstance_Timeout (exc_class e)) eqn:Ht.
    - rewrite (classify_timeout (Some e) None Ht). eexists. split; eauto.
    - destruct Hclass as [|Hn]; [discriminate|].
      rewrite (classify_connection (Some e) None Ht Hn).
      eexists. split; eauto. }
  destruct Hc as (error & Hc & Hkind).
  exists error. split; [exact Hc|]. split; [exact Hkind|].
  assert (Hh : except_transient (mk handler strategy) env attempt e
               = (Return (if (attempt <? RetryStrategy.max_retries strategy)%Z
                          then Next else Result (failure error false)),
                  [error])).
  { unfold except_transient. rewrite Hc. simpl.
    rewrite should_retry_closed_form.
    assert (Hin : bool_decide (error_type error ∈
                    [NETWORK_ERROR; TIMEOUT_ERROR; SERVER_ERROR;
                     RATE_LIMIT_ERROR]) = true).
    { apply bool_decide_eq_true.
      destruct Hkind as [->| ->]; repeat constructor. }
    rewrite Hin, andb_true_r.
    destruct (attempt <? RetryStrategy.max_retries strategy)%Z; simpl;
      [|reflexivity].
    destruct (get_delay_backoff_nonneg strategy attempt error
                (time_time env attempt)) as (d & -> & Hd);
      [|exact Husable|].
    { unfold RetryStrategy.retry_after_path.
      now destruct Hkind as [->| ->]. }
    unfold mbind, outcome_bind. now rewrite (time_sleep_nonneg d Hd). }
  unfold loop_body, try_block. rewrite Hreq.
  destruct (isinstance_Timeout (exc_class e)); [now rewrite Hh|].
  destruct Hclass as [Hx|Hx]; [discriminate|]. now rewrite Hx, Hh.
Qed.

End Retrying.

Section Scenarios.

Import RobustAPIClient.

Variable strategy : RetryStrategy.t.
Variable env : Environment.
Hypothesis Husable : usable strategy.

(** The iteration on a response with status 200 whose body decodes. *)
Lemma loop_body_success (self : RobustAPIClient.t) (attempt : Z)
    (ok : Response.t) (data : PyVal) :
  session_request env attempt = Return ok ->
  Response.status_code ok = 200%Z ->
  Response.json ok = Return data ->
  loop_body self env attempt
  = (Return (Result {[ "success" := VBool true; "data" := data;
                       "status_code" := VInt 200 ]}), []).
Proof.
  intros Hreq Hs Hj. unfold loop_body, try_block.
  now rewrite Hreq, Hs, Hj.
Qed.

(** [k] retryable responses from the attempt [a] on, then a success. *)
Lemma for_loop_retried (ok : Response.t) (data : PyVal) (k : nat) :
  forall (a n : Z) (log : list APIError),
    (Z.of_nat k < n)%Z ->
    (a + Z.of_nat k <= RetryStrategy.max_retries strategy)%Z ->
    (forall attempt, (a <= attempt < a + Z.of_nat k)%Z ->
       exists r, session_request env attempt = Return r
                 /\ retryable_response r) ->
    session_request env (a + Z.of_nat k) = Return ok ->
    Response.status_code ok = 200%Z ->
    Response.json ok = Return data ->
    let self := mk (error_handler __init__) strategy in
    exists errors,
      for_loop self env (seqZ a n) log
      = (Return {[ "success" := VBool true; "data" := data;
                   "status_code" := VInt 200 ]}, (log ++ errors)%list)
      /\ length errors = k
      /\ iterations self env (seqZ a n) = S k.
Proof.
  induction k as [|k IH]; intros a n log Hn Hmax Hretry Hreq Hs Hj self;
    rewrite seqZ_cons by lia; cbn [for_loop iterations].
  - rewrite Z.add_0_r in Hreq.
    rewrite (loop_body_success self a ok data Hreq Hs Hj).
    exists []. now rewrite app_nil_r.
  - destruct (Hretry a) as (r & Hr & Hretryable); [lia|].
    destruct (loop_body_retryable strategy env Husable a r)
      as (error & Hbody); [lia | exact Hr | exact Hretryable |].
    fold self in Hbody. rewrite Hbody.
    destruct (IH (Z.succ a) (Z.pred n) (log ++ [error])%list)
      as (errors & Hrun & Hlen & Hiter); try assumption; try lia.
    + intros attempt Hrange. apply Hretry. lia.
    + replace (Z.succ a + Z.of_nat k)%Z with (a + Z.of_nat (S k))%Z by lia.
      exact Hreq.
    + exists (error :: errors). fold self in Hrun, Hiter.
      rewrite Hrun, Hiter, <- app_assoc. simpl. repeat split. now rewrite Hlen.
Qed.

(** Timeouts or connection errors at every attempt from [a] up to
    [max_retries]. *)
Lemma for_loop_transient (handler : ErrorHandler.t) (k : nat) :
  forall (a : Z) (log : list APIError),
    (a + Z.of_nat k = RetryStrategy.max_retries strategy)%Z ->
    (forall attempt,
       (a <= attempt <= RetryStrategy.max_retries strategy)%Z ->
       exists e, session_request env attempt = Raise e
                 /\ (isinstance_Timeout (exc_class e) = true
                     \/ isinstance_ConnectionError (exc_class e) = true)) ->
    let self := mk handler strategy in
    exists e error errors,
      session_request env (RetryStrategy.max_retries strategy) = Raise e
      /\ _classify_error (Some e) None = Return error
      /\ for_loop self env (seqZ a (Z.of_nat k + 1)) log
         = (Return (failure error false), (log ++ errors)%list)
      /\ length errors = S k
      /\ iterations self env (seqZ a (Z.of_nat k + 1)) = S k.
Proof.
  induction k as [|k IH]; intros a log Hmax Hall self;
    rewrite seqZ_cons by lia; cbn [for_loop iterations];
    destruct (Hall a) as (e & Hreq & Hclass); try lia;
    destruct (loop_body_transient strategy env Husable handler a e Hreq
                Hclass) as (error & Hc & _ & Hbody);
    fold self in Hbody; rewrite Hbody.
  - assert (a = RetryStrategy.max_retries strategy) as Ha by lia.
    rewrite Ha in Hreq |- *. rewrite Z.ltb_irrefl.
    exists e, error, [error]. repeat split; assumption.
  - destruct (Z.ltb_spec a (RetryStrategy.max_retries strategy)); [|lia].
    destruct (IH (Z.succ a) (log ++ [error])%list)
      as (e' & error' & errors & Hlast & Hc' & Hrun & Hlen & Hiter);
      [lia | intros attempt Hrange; apply Hall; lia |].
    fold self in Hrun, Hiter.
    replace (Z.pred (Z.of_nat (S k) + 1)) with (Z.of_nat k + 1)%Z by lia.
    exists e', error', (error :: errors).
    rewrite Hrun, Hiter, <- app_assoc. simpl.
    repeat split; try assumption. now rewrite Hlen.
Qed.

End Scenarios.





(** [time.sleep] refuses a negative length. *)
Lemma time_sleep_negative (secs : Q) :
  (secs < 0)%Q ->
  time_sleep secs
  = Raise (mkException ValueError "sleep length must be non-negative").
Proof.
  intros Hneg. unfold time_sleep.
  destruct (Qle_bool 0 secs) eqn:Hle; [|reflexivity].
  apply Qle_bool_iff in Hle. lra.
Qed.



(** Reads the dictionary off a returning iteration. *)
Lemma returned_result (x d : gmap string PyVal) (l l' : list APIError) :
  (Return (Result x), l) = (Return (Result d), l') -> d = x.
Proof.
  intros H.
  exact (f_equal (fun r : outcome Control * list APIError =>
                    match r with
                    | (Return (Result y), _) => y
                    | _ => d
                    end) (eq_sym H)).
Qed.

(** The dictionaries that an iteration can return. *)
Lemma loop_body_result_shape (self : RobustAPIClient.t) (env : Environment)
    (attempt : Z) (d : gmap string PyVal) (produced : list APIError) :
  RobustAPIClient.loop_body self env attempt = (Return (Result d), produced) ->
  (exists data,
     d = {[ "success" := VBool true; "data" := data;
            "status_code" := VInt 200 ]})
  \/ exists error with_status, d = RobustAPIClient.failure error with_status.
Proof.
  assert (Hwait : forall (m : outcome Q) (l l' : list APIError),
            (delay ← m; _ ← time_sleep delay; mret Next, l)
            = (Return (Result d), l') -> False).
  { intros [delay|e] l l'; unfold mbind, outcome_bind, mret, outcome_ret;
      [destruct (time_sleep delay)|]; discriminate. }
  assert (Hfailure : forall error with_status (l l' : list APIError),
            (Return (Result (RobustAPIClient.failure error with_status)), l)
            = (Return (Result d), l') ->
            exists error with_status,
              d = RobustAPIClient.failure error with_status).
  { intros error with_status l l' H. apply returned_result in H. eauto. }
  assert (Htransient : forall e l,
            RobustAPIClient.except_transient self env attempt e
            = (Return (Result d), l) ->
            exists error with_status,
              d = RobustAPIClient.failure error with_status).
  { intros e l. unfold RobustAPIClient.except_transient.
    destruct (RobustAPIClient._classify_error (Some e) None) as [error|e'];
      [|discriminate].
    destruct (negb _); [apply Hfailure|].
    intros H. now apply Hwait in H. }
  assert (Hexception : forall e l,
            RobustAPIClient.except_Exception e = (Return (Result d), l) ->
            exists error with_status,
              d = RobustAPIClient.failure error with_status).
  { intros e l. unfold RobustAPIClient.except_Exception.
    destruct (RobustAPIClient._classify_error (Some e) None) as [error|e'];
      [apply Hfailure | discriminate]. }
  unfold RobustAPIClient.loop_body.
  destruct (RobustAPIClient.try_block self env attempt) as [[c|e] l] eqn:Htry.
  - intros H. assert (c = Result d) as -> by congruence. clear H.
    unfold RobustAPIClient.try_block in Htry.
    destruct (session_request env attempt) as [response|e]; [|discriminate].
    destruct (Z.eqb_spec (Response.status_code response) 200) as [E|_].
    + destruct (Response.json response) as [data|e]; [|discriminate].
      apply returned_result in Htry. left. exists data. now rewrite Htry, E.
    + destruct (RobustAPIClient._classify_error None (Some response))
        as [error|e]; [|discriminate].
      destruct (negb _); [right; eapply Hfailure, Htry|].
      destruct (negb _); [right; eapply Hfailure, Htry|].
      now apply Hwait in Htry.
  - assert (Hpair : forall (r : outcome Control * list APIError),
              (let '(c, produced') := r in (c, (l ++ produced')%list))
              = (Return (Result d), produced) ->
              exists l', r = (Return (Result d), l')).
    { intros [c l'] H. exists l'. congruence. }
    intros H. apply Hpair in H as [l' H]. right.
    destruct (isinstance_Timeout (exc_class e));
      [eapply Htransient, H|].
    destruct (isinstance_ConnectionError (exc_class e));
      [eapply Htransient, H | eapply Hexception, H].
Qed.

Lemma for_loop_result_shape (self : RobustAPIClient.t) (env : Environment)
    (attempts : list Z) :
  forall (log log' : list APIError) (d : gmap string PyVal),
    RobustAPIClient.for_loop self env attempts log = (Return d, log') ->
    d = RobustAPIClient.max_retries_exceeded
    \/ (exists data,
          d = {[ "success" := VBool true; "data" := data;
                 "status_code" := VInt 200 ]})
    \/ exists error with_status,
         d = RobustAPIClient.failure error with_status.
Proof.
  induction attempts as [|attempt rest IH]; intros log log' d; simpl.
  - intros H. left. congruence.
  - destruct (RobustAPIClient.loop_body self env attempt)
      as [[[|d0]|e] produced] eqn:Hbody.
    + apply IH.
    + intros H. assert (d0 = d) as -> by congruence.
      right. eapply loop_body_result_shape, Hbody.
    + discriminate.
Qed.

(** X17: whatever the client, the transport and the clock, a dictionary
    that the call returns has a boolean ['success'] entry.  When it is true
    the dictionary holds ['data'] and the status 200 and no ['error']; when
    it is false it holds the strings ['error'] and ['error_type'] and no
    ['data']. *)
Theorem returned_dict_entries (self : RobustAPIClient.t) (env : Environment)
    (d : gmap string PyVal) (log : list APIError) :
  RobustAPIClient._make_request_with_retry self env = (Return d, log) ->
  (d !! "success" = Some (VBool true)
   /\ (exists data, d !! "data" = Some data)
   /\ d !! "status_code" = Some (VInt 200)
   /\ d !! "error" = None)
  \/ (d !! "success" = Some (VBool false)
      /\ (exists text, d !! "error" = Some (VStr text))
      /\ (exists kind, d !! "error_type" = Some (VStr kind))
      /\ d !! "data" = None).
Proof.
  intros Hrun. unfold RobustAPIClient._make_request_with_retry in Hrun.
  apply for_loop_result_shape in Hrun
    as [->|[(data & ->)|(error & with_status & ->)]].
  - right. repeat split; eexists; reflexivity.
  - left. repeat split. now exists data.
  - right. destruct with_status; repeat split; eexists; reflexivity.
Qed.

Lemma returned_dict_entries_witness :
  let env :=
    mkEnvironment (fun _ => Return (Response.mk 404 ∅ (Return VNone)))
                  (fun _ => 0%Q) in
  exists d log,
    RobustAPIClient._make_request_with_retry RobustAPIClient.__init__ env
    = (Return d, log)
    /\ d !! "success" = Some (VBool false)
    /\ exists kind, d !! "error_type" = Some (VStr kind).
Proof.
  intros env. do 2 eexists. split; [vm_compute; reflexivity|].
  destruct (returned_dict_entries RobustAPIClient.__init__ env _ _ eq_refl)
    as [(Hs & _)|(Hs & _ & Hk & _)].
  - vm_compute in Hs. discriminate.
  - split; [exact Hs | exact Hk].
Defined.




